(** * expo-text-extractor: the JavaScript surface and the two native modules

    A shallow embedding of
    - [src/index.ts]: the public surface ([file://] stripping, forwarding);
    - the Kotlin module (Android, Google ML Kit);
    - the Swift module (iOS, Apple Vision).

    JavaScript numbers, Swift [CGFloat] and [VNConfidence] and Kotlin [Float]
    are IEEE 754 values; they are modelled by Rocq's primitive binary64
    [float] (every binary32 value is a binary64 value).  Kotlin and Java
    [Int] are 32-bit integers, modelled in [Z] with the wrap-around written
    out.  Vendor calls (file system, decoders, recognizers) are fields of an
    environment record, one per platform. *)

From Stdlib Require Import String Ascii List ZArith Bool Lia Floats Uint63.
From Stdlib Require Import Init.Byte.
Import ListNotations.

Local Open Scope list_scope.
Local Open Scope string_scope.

(** ** Promises

    A native call settles its promise once: resolved with a value or
    rejected with an error.  [recognized] lists the images handed to the
    vendor recognizer during the call, in order. *)

Inductive Settlement (A E : Type) : Type :=
| Resolved (value : A)
| Rejected (error : E).

Arguments Resolved {A E} value.
Arguments Rejected {A E} error.

Record Run (I A E : Type) : Type := mkRun {
  recognized : list I;
  settled : Settlement A E
}.

Arguments mkRun {I A E} recognized settled.
Arguments recognized {I A E} r.
Arguments settled {I A E} r.

(** ** The JavaScript layer *)

Module JS.

(** [StringIndexOf(s, searchValue, 0)]: the least index at which
    [searchValue] occurs in [s]. *)
Fixpoint indexOf (searchValue s : string) : option nat :=
  if prefix searchValue s then Some 0
  else match s with
       | EmptyString => None
       | String _ s' => option_map S (indexOf searchValue s')
       end.

(** [s.replace(searchValue, replaceValue)] for a string [searchValue] and
    a [replaceValue] without [$] patterns: only the first match is
    replaced. *)
Definition replace (s searchValue replaceValue : string) : string :=
  match indexOf searchValue s with
  | None => s
  | Some pos =>
      let after := pos + String.length searchValue in
      substring 0 pos s ++ replaceValue
        ++ substring after (String.length s - after) s
  end.

(** The call surface of [ExpoTextExtractorModule.ts].  [P] and [Q] are
    what the two families of native functions return. *)
Record NativeModule (P Q : Type) : Type := {
  isSupported : bool;
  native_extractTextFromImage : string -> P;
  native_extractTextFromImageData : string -> P;
  native_extractTextFromImageWithDetails : string -> Q;
  native_extractTextFromImageDataWithDetails : string -> Q
}.

Arguments isSupported {P Q} n.
Arguments native_extractTextFromImage {P Q} n _.
Arguments native_extractTextFromImageData {P Q} n _.
Arguments native_extractTextFromImageWithDetails {P Q} n _.
Arguments native_extractTextFromImageDataWithDetails {P Q} n _.

Section Surface.
Context {P Q : Type} (ExpoTextExtractorModule : NativeModule P Q).

Definition extractTextFromImage (uri : string) : P :=
  let processedUri := replace uri "file://" "" in
  native_extractTextFromImage ExpoTextExtractorModule processedUri.

Definition extractTextFromImageData (base64Data : string) : P :=
  native_extractTextFromImageData ExpoTextExtractorModule base64Data.

Definition extractTextFromImageWithDetails (uri : string) : Q :=
  let processedUri := replace uri "file://" "" in
  native_extractTextFromImageWithDetails ExpoTextExtractorModule processedUri.

Definition extractTextFromImageDataWithDetails (base64Data : string) : Q :=
  native_extractTextFromImageDataWithDetails ExpoTextExtractorModule base64Data.
End Surface.

End JS.


(** ** Google ML Kit (vendor types, as the Kotlin module reads them) *)

Module MLKit.

(** [android.graphics.Rect]: four [Int] fields, top-left pixel space. *)
Record Rect : Type := {
  left : Z;
  top : Z;
  right : Z;
  bottom : Z
}.

(** A Java [int] result: two's complement wrap-around to 32 bits. *)
Definition toInt (z : Z) : Z :=
  ((z + 2147483648) mod 4294967296 - 2147483648)%Z.

(** [Rect.width()] is [right - left], [Rect.height()] is [bottom - top]. *)
Definition width (r : Rect) : Z := toInt (right r - left r).
Definition height (r : Rect) : Z := toInt (bottom r - top r).

(** A text block as the module uses it: [confidence] and [boundingBox]
    are nullable. *)
Record TextBlock : Type := {
  text : string;
  confidence : option float;
  boundingBox : option Rect
}.

Record Text : Type := { textBlocks : list TextBlock }.

End MLKit.

(** ** The Kotlin module *)

Module Android.

(** A Kotlin [Throwable]; [message] is nullable. *)
Record Throwable : Type := { message : option string }.

Definition Exception (message : string) : Throwable :=
  {| message := Some message |}.

(** What [!!] throws on [null]. *)
Definition NullPointerException : Throwable := {| message := None |}.

Inductive Uri : Type :=
| Uri_parse (uriString : string)
| Uri_fromFile (file : string).

(** Expo's [CodedException], by the three argument lists the module
    writes.  With a message and a cause only, no code is given: Expo
    derives one from the exception class. *)
Inductive CodedException : Type :=
| CodedException_code_message_cause (code message : string) (cause : Throwable)
| CodedException_code_message (code message : string)
| CodedException_message_cause (message : string) (cause : Throwable).

Definition code (e : CodedException) : option string :=
  match e with
  | CodedException_code_message_cause c _ _ => Some c
  | CodedException_code_message c _ => Some c
  | CodedException_message_cause _ _ => None
  end.

Definition codedMessage (e : CodedException) : string :=
  match e with
  | CodedException_code_message_cause _ m _ => m
  | CodedException_code_message _ m => m
  | CodedException_message_cause m _ => m
  end.

(** Kotlin's [a ?: b]. *)
Definition elvis {A : Type} (a : option A) (b : A) : A :=
  match a with
  | Some v => v
  | None => b
  end.

(** The vendor and platform calls of the module. *)
Record Env : Type := {
  ReactContext : Type;
  InputImage : Type;
  Bitmap : Type;
  reactContext : option ReactContext;
  File_exists : string -> bool;
  InputImage_fromFilePath : ReactContext -> Uri -> Throwable + InputImage;
  Base64_decode : string -> Throwable + list byte;
  BitmapFactory_decodeByteArray : list byte -> option Bitmap;
  InputImage_fromBitmap : Bitmap -> InputImage;
  (** [recognizer.process(inputImage)]: the task succeeds with a [Text]
      or fails with an error. *)
  process : InputImage -> Throwable + MLKit.Text
}.

(** The maps built by the detailed functions; [Int?] values may be null. *)
Record BoundingBox : Type := {
  x : option Z;
  y : option Z;
  width : option Z;
  height : option Z
}.

Record RecognizedText : Type := {
  text : string;
  confidence : float;
  boundingBox : BoundingBox
}.

Definition Promise (env : Env) (A : Type) : Type :=
  Run (InputImage env) A CodedException.

Section Functions.
Variable env : Env.

(** [catch (error: Exception)] of every function. *)
Definition catch {A : Type} (error : Throwable) : Promise env A :=
  mkRun [] (Rejected (CodedException_code_message_cause "UNKNOWN_ERROR"
                        (elvis (message error) "Unknown error") error)).

(** [recognizer.process(inputImage)] with its two listeners. *)
Definition recognize {A : Type} (inputImage : InputImage env)
    (onSuccess : MLKit.Text -> A)
    (onFailure : Throwable -> CodedException) : Promise env A :=
  mkRun [inputImage]
    match process env inputImage with
    | inr visionText => Resolved (onSuccess visionText)
    | inl error => Rejected (onFailure error)
    end.

Definition extractTextFromImage (uriString : string)
  : Promise env (list string) :=
  match reactContext env with
  | None => catch NullPointerException
  | Some context =>
      let uri : Throwable + Uri :=
        if prefix "content://" uriString then inr (Uri_parse uriString)
        else
          let file := uriString in
          if negb (File_exists env file) then
            inl (Exception ("File not found: " ++ uriString))
          else inr (Uri_fromFile file) in
      match uri with
      | inl error => catch error
      | inr uri =>
          match InputImage_fromFilePath env context uri with
          | inl error => catch error
          | inr inputImage =>
              recognize inputImage
                (fun visionText => map MLKit.text (MLKit.textBlocks visionText))
                (fun error => CodedException_message_cause "err" error)
          end
      end
  end.

Definition extractTextFromImageData (base64Data : string)
  : Promise env (list string) :=
  match Base64_decode env base64Data with
  | inl error => catch error
  | inr imageBytes =>
      match BitmapFactory_decodeByteArray env imageBytes with
      | None =>
          mkRun [] (Rejected (CodedException_code_message "INVALID_IMAGE"
                                "Unable to decode image from base64 data"))
      | Some bitmap =>
          let inputImage := InputImage_fromBitmap env bitmap in
          recognize inputImage
            (fun visionText => map MLKit.text (MLKit.textBlocks visionText))
            (fun error =>
               CodedException_code_message_cause "TEXT_RECOGNITION_ERROR"
                 (elvis (message error) "Text recognition failed") error)
      end
  end.

(** The map built for one text block by both detailed functions. *)
Definition details (textBlock : MLKit.TextBlock) : RecognizedText :=
  {| text := MLKit.text textBlock;
     confidence := elvis (MLKit.confidence textBlock) 0.5%float;
     boundingBox :=
       {| x := option_map MLKit.left (MLKit.boundingBox textBlock);
          y := option_map MLKit.top (MLKit.boundingBox textBlock);
          width := option_map MLKit.width (MLKit.boundingBox textBlock);
          height := option_map MLKit.height (MLKit.boundingBox textBlock) |} |}.

Definition extractTextFromImageWithDetails (uriString : string)
  : Promise env (list RecognizedText) :=
  match reactContext env with
  | None => catch NullPointerException
  | Some context =>
      let uri : Throwable + Uri :=
        if prefix "content://" uriString then inr (Uri_parse uriString)
        else
          let file := uriString in
          if negb (File_exists env file) then
            inl (Exception ("File not found: " ++ uriString))
          else inr (Uri_fromFile file) in
      match uri with
      | inl error => catch error
      | inr uri =>
          match InputImage_fromFilePath env context uri with
          | inl error => catch error
          | inr inputImage =>
              recognize inputImage
                (fun visionText => map details (MLKit.textBlocks visionText))
                (fun error =>
                   CodedException_code_message_cause "TEXT_RECOGNITION_ERROR"
                     (elvis (message error) "Text recognition failed") error)
          end
      end
  end.

Definition extractTextFromImageDataWithDetails (base64Data : string)
  : Promise env (list RecognizedText) :=
  match Base64_decode env base64Data with
  | inl error => catch error
  | inr imageBytes =>
      match BitmapFactory_decodeByteArray env imageBytes with
      | None =>
          mkRun [] (Rejected (CodedException_code_message "INVALID_IMAGE"
                                "Unable to decode image from base64 data"))
      | Some bitmap =>
          let inputImage := InputImage_fromBitmap env bitmap in
          recognize inputImage
            (fun visionText => map details (MLKit.textBlocks visionText))
            (fun error =>
               CodedException_code_message_cause "TEXT_RECOGNITION_ERROR"
                 (elvis (message error) "Text recognition failed") error)
      end
  end.

(** The module as the JavaScript layer sees it. *)
Definition ExpoTextExtractorModule
  : JS.NativeModule (Promise env (list string))
                    (Promise env (list RecognizedText)) :=
  {| JS.isSupported := true;
     JS.native_extractTextFromImage := extractTextFromImage;
     JS.native_extractTextFromImageData := extractTextFromImageData;
     JS.native_extractTextFromImageWithDetails :=
       extractTextFromImageWithDetails;
     JS.native_extractTextFromImageDataWithDetails :=
       extractTextFromImageDataWithDetails |}.
End Functions.

End Android.

(** ** Apple Vision and Core Graphics (vendor types, as the Swift module
    reads them) *)

Module CGRect.
(** A Vision bounding box: normalized, origin at the bottom left. *)
Record t : Type := {
  origin_x : float;
  origin_y : float;
  width : float;
  height : float
}.
End CGRect.

Module CGSize.
Record t : Type := {
  width : float;
  height : float
}.
End CGSize.

Module Vision.

(** [CGFloat] of a Swift [Int]. *)
Definition CGFloat (n : Z) : float :=
  if (n <? 0)%Z then PrimFloat.opp (PrimFloat.of_uint63 (Uint63.of_Z (- n)))
  else PrimFloat.of_uint63 (Uint63.of_Z n).

Record VNRecognizedText : Type := {
  string_ : string;
  confidence : float
}.

Record VNRecognizedTextObservation : Type := {
  candidates : list VNRecognizedText;
  boundingBox : CGRect.t
}.

(** [observation.topCandidates(n)]: at most [n] candidates, best first. *)
Definition topCandidates (n : nat) (observation : VNRecognizedTextObservation)
  : list VNRecognizedText :=
  firstn n (candidates observation).

End Vision.

Definition isSome {A : Type} (o : option A) : bool :=
  match o with
  | Some _ => true
  | None => false
  end.

(** Swift's [compactMap]: the non-nil images, in order. *)
Fixpoint compactMap {A B : Type} (f : A -> option B) (l : list A) : list B :=
  match l with
  | [] => []
  | a :: l' =>
      match f a with
      | Some b => b :: compactMap f l'
      | None => compactMap f l'
      end
  end.

(** ** The Swift module *)

Module IOS.

(** The vendor and platform calls of the module. *)
Record Env : Type := {
  Data : Type;
  UIImage : Type;
  CGImage : Type;
  NSError : Type;
  (** [try Data(contentsOf: url)] *)
  Data_contentsOf : string -> NSError + Data;
  (** [Data(base64Encoded: base64Data)] *)
  Data_base64Encoded : string -> option Data;
  (** [UIImage(data: imageData)] *)
  UIImage_data : Data -> option UIImage;
  cgImage : UIImage -> option CGImage;
  CGImage_width : CGImage -> Z;
  CGImage_height : CGImage -> Z;
  (** [try requestHandler.perform([request])]: it throws, or the
      completion handler runs with [request.results] cast to
      [[VNRecognizedTextObservation]] ([None] when the cast fails). *)
  perform : CGImage -> NSError + option (list Vision.VNRecognizedTextObservation)
}.

(** What a [do] block throws: an Expo [Exception(name:description:)] or an
    error of the system. *)
Inductive Error (env : Env) : Type :=
| Exception (name description : string)
| Thrown (error : NSError env).

Arguments Exception {env} name description.
Arguments Thrown {env} error.

(** The name a rejection carries when the module itself chose one. *)
Definition name {env : Env} (e : Error env) : option string :=
  match e with
  | Exception n _ => Some n
  | Thrown _ => None
  end.

Record BoundingBox : Type := {
  x : float;
  y : float;
  width : float;
  height : float
}.

Record RecognizedText : Type := {
  text : string;
  confidence : float;
  boundingBox : BoundingBox
}.

(** The four [let]s of the detailed functions: normalized coordinates to
    pixel coordinates, with the Y coordinate flipped. *)
Definition normalizedToPixel (boundingBox : CGRect.t) (imageSize : CGSize.t)
  : BoundingBox :=
  let x := (CGRect.origin_x boundingBox * CGSize.width imageSize)%float in
  let y := ((1 - CGRect.origin_y boundingBox - CGRect.height boundingBox)
            * CGSize.height imageSize)%float in
  let width := (CGRect.width boundingBox * CGSize.width imageSize)%float in
  let height := (CGRect.height boundingBox * CGSize.height imageSize)%float in
  {| x := x; y := y; width := width; height := height |}.

Definition Promise (env : Env) (A : Type) : Type :=
  Run (CGImage env) A (Error env).

Section Functions.
Variable env : Env.

(** [catch { promise.reject(error) }] *)
Definition reject {A : Type} (error : Error env) : Promise env A :=
  mkRun [] (Rejected error).

(** [image?.cgImage] *)
Definition image_cgImage (image : option (UIImage env))
  : option (CGImage env) :=
  match image with
  | Some i => cgImage env i
  | None => None
  end.

(** The request with its completion handler, performed on [cgImage]. *)
Definition recognize {A : Type} (image : CGImage env)
    (completion : list Vision.VNRecognizedTextObservation -> list A)
  : Promise env (list A) :=
  mkRun [image]
    match perform env image with
    | inl error => Rejected (Thrown error)
    | inr None => Resolved []
    | inr (Some observations) => Resolved (completion observations)
    end.

Definition recognizedTexts
    (observations : list Vision.VNRecognizedTextObservation) : list string :=
  compactMap
    (fun observation =>
       option_map Vision.string_
         (hd_error (Vision.topCandidates 1 observation)))
    observations.

Definition extractTextFromImage (url : string) : Promise env (list string) :=
  match Data_contentsOf env url with
  | inl error => reject (Thrown error)
  | inr imageData =>
      let image := UIImage_data env imageData in
      match image_cgImage image with
      | None => reject (Exception "err" "err")
      | Some cgImage => recognize cgImage recognizedTexts
      end
  end.

Definition extractTextFromImageData (base64Data : string)
  : Promise env (list string) :=
  match Data_base64Encoded env base64Data with
  | None => reject (Exception "INVALID_BASE64" "Invalid base64 data")
  | Some imageData =>
      let image := UIImage_data env imageData in
      match image_cgImage image with
      | None =>
          reject (Exception "INVALID_IMAGE" "Unable to create image from data")
      | Some cgImage => recognize cgImage recognizedTexts
      end
  end.

(** The closure of the detailed functions, for one observation. *)
Definition details (cgImage : CGImage env)
    (observation : Vision.VNRecognizedTextObservation)
  : option RecognizedText :=
  match hd_error (Vision.topCandidates 1 observation) with
  | None => None
  | Some topCandidate =>
      let boundingBox := Vision.boundingBox observation in
      let imageSize :=
        {| CGSize.width := Vision.CGFloat (CGImage_width env cgImage);
           CGSize.height := Vision.CGFloat (CGImage_height env cgImage) |} in
      Some {| text := Vision.string_ topCandidate;
              confidence := Vision.confidence topCandidate;
              boundingBox := normalizedToPixel boundingBox imageSize |}
  end.

Definition extractTextFromImageWithDetails (url : string)
  : Promise env (list RecognizedText) :=
  match Data_contentsOf env url with
  | inl error => reject (Thrown error)
  | inr imageData =>
      let image := UIImage_data env imageData in
      match image_cgImage image with
      | None =>
          reject (Exception "INVALID_IMAGE" "Unable to create image from file")
      | Some cgImage => recognize cgImage (compactMap (details cgImage))
      end
  end.

Definition extractTextFromImageDataWithDetails (base64Data : string)
  : Promise env (list RecognizedText) :=
  match Data_base64Encoded env base64Data with
  | None => reject (Exception "INVALID_BASE64" "Invalid base64 data")
  | Some imageData =>
      let image := UIImage_data env imageData in
      match image_cgImage image with
      | None =>
          reject (Exception "INVALID_IMAGE" "Unable to create image from data")
      | Some cgImage => recognize cgImage (compactMap (details cgImage))
      end
  end.

(** The module as the JavaScript layer sees it. *)
Definition ExpoTextExtractorModule
  : JS.NativeModule (Promise env (list string))
                    (Promise env (list RecognizedText)) :=
  {| JS.isSupported := true;
     JS.native_extractTextFromImage := extractTextFromImage;
     JS.native_extractTextFromImageData := extractTextFromImageData;
     JS.native_extractTextFromImageWithDetails :=
       extractTextFromImageWithDetails;
     JS.native_extractTextFromImageDataWithDetails :=
       extractTextFromImageDataWithDetails |}.
End Functions.

End IOS.

(** ** The unified types ([types.unified.ts]) *)

Module Unified.

(** The closed error taxonomy; each member's value is its own name. *)
Inductive OCRErrorCode : Type :=
| INVALID_IMAGE
| INVALID_BASE64
| PROCESSING_FAILED
| TIMEOUT
| UNSUPPORTED_FORMAT
| NETWORK_ERROR
| MODEL_NOT_AVAILABLE
| PERMISSION_DENIED
| UNKNOWN_ERROR.

Definition value (c : OCRErrorCode) : string :=
  match c with
  | INVALID_IMAGE => "INVALID_IMAGE"
  | INVALID_BASE64 => "INVALID_BASE64"
  | PROCESSING_FAILED => "PROCESSING_FAILED"
  | TIMEOUT => "TIMEOUT"
  | UNSUPPORTED_FORMAT => "UNSUPPORTED_FORMAT"
  | NETWORK_ERROR => "NETWORK_ERROR"
  | MODEL_NOT_AVAILABLE => "MODEL_NOT_AVAILABLE"
  | PERMISSION_DENIED => "PERMISSION_DENIED"
  | UNKNOWN_ERROR => "UNKNOWN_ERROR"
  end.

(** [BoundingBox], without its optional members. *)
Record BoundingBox : Type := {
  x : float;
  y : float;
  width : float;
  height : float
}.

Record LegacyRecognizedText : Type := {
  text : string;
  confidence : float;
  boundingBox : BoundingBox
}.

(** Modelled from the spec: the [minConfidence] post-filter of the options
    translator.  The repository declares the option
    ([OCROptions.minConfidence]) and the converters' signatures
    ([PlatformConverters]) and has no implementation of either; the spec
    says the translator applies the threshold as a post-filter over the
    unified result, dropping the entities below the threshold. *)
Definition applyMinConfidence {E : Type} (confidence : E -> float)
    (minConfidence : float) (entities : list E) : list E :=
  filter (fun entity => negb (confidence entity <? minConfidence)%float)
         entities.

End Unified.

(** ** Vocabulary of the statements *)

(** [occursAt pat pre s]: [pat] occurs in [s] right after the prefix [pre]. *)
Definition occursAt (pat pre s : string) : Prop :=
  exists post, s = pre ++ pat ++ post.

(** [firstOccurrence pat pre s]: the occurrence after [pre] is the leftmost. *)
Definition firstOccurrence (pat pre s : string) : Prop :=
  occursAt pat pre s /\
  forall pre', occursAt pat pre' s -> String.length pre <= String.length pre'.

Definition absent (pat s : string) : Prop :=
  forall pre, ~ occursAt pat pre s.

(** [l1] is [l2] with some elements left out, the others in their order. *)
Inductive Subsequence {A : Type} : list A -> list A -> Prop :=
| Subsequence_nil : Subsequence [] []
| Subsequence_keep a l1 l2 : Subsequence l1 l2 -> Subsequence (a :: l1) (a :: l2)
| Subsequence_drop a l1 l2 : Subsequence l1 l2 -> Subsequence l1 (a :: l2).


(** All four members of an Android bounding box are numbers. *)
Definition numeric (b : Android.BoundingBox) : Prop :=
  exists x y width height,
    b = {| Android.x := Some x; Android.y := Some y;
           Android.width := Some width; Android.height := Some height |}.

(** The bounding box of a block that has a native rect: the rect itself. *)
Definition passedThrough (r : MLKit.Rect) : Android.BoundingBox :=
  {| Android.x := Some (MLKit.left r);
     Android.y := Some (MLKit.top r);
     Android.width := Some (MLKit.width r);
     Android.height := Some (MLKit.height r) |}.

Definition nullBox : Android.BoundingBox :=
  {| Android.x := None; Android.y := None;
     Android.width := None; Android.height := None |}.

(** [guard let observations = ... else { return promise.resolve([]) }]:
    without observations the completion handler resolves with nothing. *)
Definition observed (results : option (list Vision.VNRecognizedTextObservation))
  : list Vision.VNRecognizedTextObservation :=
  match results with
  | Some observations => observations
  | None => []
  end.

(** The entry's box is the observation's, scaled by [W] and [H] with the
    Y axis flipped. *)
Definition scaledAndFlipped (W H : float) (normalized : CGRect.t)
    (box : IOS.BoundingBox) : Prop :=
  IOS.x box = (CGRect.origin_x normalized * W)%float /\
  IOS.y box
  = ((1 - CGRect.origin_y normalized - CGRect.height normalized) * H)%float /\
  IOS.width box = (CGRect.width normalized * W)%float /\
  IOS.height box = (CGRect.height normalized * H)%float.

(** An observation for which the Swift closures produce an entry. *)
Definition hasCandidate (observation : Vision.VNRecognizedTextObservation) : bool :=
  match Vision.topCandidates 1 observation with
  | [] => false
  | _ :: _ => true
  end.

(** The pixel size of a decoded image, as the Swift closure builds it. *)
Definition imageSize (env : IOS.Env) (cgImage : IOS.CGImage env) : CGSize.t :=
  {| CGSize.width := Vision.CGFloat (IOS.CGImage_width env cgImage);
     CGSize.height := Vision.CGFloat (IOS.CGImage_height env cgImage) |}.

(** A valid image on Android: the module has its context, and [uriString]
    is a content URI or the path of an existing file that ML Kit loads as
    [inputImage]. *)
Definition androidValidImage (env : Android.Env) (uriString : string)
    (inputImage : Android.InputImage env) : Prop :=
  exists context,
    Android.reactContext env = Some context /\
    ((prefix "content://" uriString = true /\
      Android.InputImage_fromFilePath env context (Android.Uri_parse uriString)
      = inr inputImage) \/
     (prefix "content://" uriString = false /\
      Android.File_exists env uriString = true /\
      Android.InputImage_fromFilePath env context (Android.Uri_fromFile uriString)
      = inr inputImage)).

(** A valid image on iOS: [url] is read, and its data decodes to
    [cgImage]. *)
Definition iosValidImage (env : IOS.Env) (url : string)
    (cgImage : IOS.CGImage env) : Prop :=
  exists imageData,
    IOS.Data_contentsOf env url = inr imageData /\
    IOS.image_cgImage env (IOS.UIImage_data env imageData) = Some cgImage.

(** The two detailed calls of a platform, through the JavaScript layer. *)
Definition detailedCalls {P Q : Type} (M : JS.NativeModule P Q) (input : string)
  : list Q :=
  [JS.extractTextFromImageWithDetails M input;
   JS.extractTextFromImageDataWithDetails M input].

(** A call that rejects with [kind] before the recognizer is invoked. *)
Definition failsFast {I A E : Type} (codeOf : E -> option string)
    (kind : string) (run : Run I A E) : Prop :=
  recognized run = [] /\
  exists e, settled run = Rejected e /\ codeOf e = Some kind.

(** The shapes a run of the Kotlin module can take: the [catch] block, the
    null-bitmap rejection, or the recognizer with the two listeners. *)
Inductive AndroidRun (env : Android.Env) {A : Type}
    (onSuccess : MLKit.Text -> A)
    (onFailure : Android.Throwable -> Android.CodedException)
  : Android.Promise env A -> Prop :=
| AndroidRun_catch error :
    AndroidRun env onSuccess onFailure (Android.catch env error)
| AndroidRun_null_bitmap :
    AndroidRun env onSuccess onFailure
      (mkRun [] (Rejected (Android.CodedException_code_message "INVALID_IMAGE"
                             "Unable to decode image from base64 data")))
| AndroidRun_recognize inputImage :
    AndroidRun env onSuccess onFailure
      (Android.recognize env inputImage onSuccess onFailure).

Definition recognitionFailed (error : Android.Throwable) : Android.CodedException :=
  Android.CodedException_code_message_cause "TEXT_RECOGNITION_ERROR"
    (Android.elvis (Android.message error) "Text recognition failed") error.

(** The shapes a run of the Swift module can take: the [catch] block before
    the request is performed, or the request on a decoded image. *)
Inductive IOSRun (env : IOS.Env) {A : Type}
    (completion : IOS.CGImage env ->
                  list Vision.VNRecognizedTextObservation -> list A)
  : IOS.Promise env (list A) -> Prop :=
| IOSRun_reject error : IOSRun env completion (IOS.reject env error)
| IOSRun_recognize cgImage :
    IOSRun env completion (IOS.recognize env cgImage (completion cgImage)).

(** ** Sample environments *)

Module Sample.

(** A device whose only file is [/photo.jpg], whose decodable payload is
    ["AAAA"], and whose recognizer answers [answer] on every image. *)
Definition android (answer : Android.Throwable + MLKit.Text) : Android.Env :=
  {| Android.ReactContext := unit;
     Android.InputImage := string;
     Android.Bitmap := list byte;
     Android.reactContext := Some tt;
     Android.File_exists := fun file => String.eqb file "/photo.jpg";
     Android.InputImage_fromFilePath := fun _ uri =>
       match uri with
       | Android.Uri_parse uriString => inr uriString
       | Android.Uri_fromFile file => inr file
       end;
     Android.Base64_decode := fun base64Data =>
       if String.eqb base64Data "AAAA" then inr [x00; x00; x00]
       else inl (Android.Exception "bad base-64");
     Android.BitmapFactory_decodeByteArray := fun imageBytes =>
       match imageBytes with
       | [] => None
       | _ :: _ => Some imageBytes
       end;
     Android.InputImage_fromBitmap := fun _ => "bitmap";
     Android.process := fun _ => answer |}.

Definition block (text : string) (confidence : option float)
    (boundingBox : option MLKit.Rect) : MLKit.TextBlock :=
  {| MLKit.text := text;
     MLKit.confidence := confidence;
     MLKit.boundingBox := boundingBox |}.

Definition rect : MLKit.Rect :=
  {| MLKit.left := 10; MLKit.top := 20; MLKit.right := 110; MLKit.bottom := 60 |}.

Definition page : MLKit.Text :=
  {| MLKit.textBlocks :=
       [block "Hello" (Some 0.75%float) (Some rect); block "World" None None] |}.

(** A device whose only file is [/photo.jpg], an image of [w] by [h]
    pixels, whose decodable payload is ["AAAA"], and on which Vision
    answers [answer]. *)
Definition ios (w h : Z)
    (answer : unit + option (list Vision.VNRecognizedTextObservation))
  : IOS.Env :=
  {| IOS.Data := list byte;
     IOS.UIImage := list byte;
     IOS.CGImage := Z * Z;
     IOS.NSError := unit;
     IOS.Data_contentsOf := fun url =>
       if String.eqb url "/photo.jpg" then inr [x00; x00; x00] else inl tt;
     IOS.Data_base64Encoded := fun base64Data =>
       if String.eqb base64Data "AAAA" then Some [x00; x00; x00] else None;
     IOS.UIImage_data := fun imageData =>
       match imageData with
       | [] => None
       | _ :: _ => Some imageData
       end;
     IOS.cgImage := fun _ => Some (w, h);
     IOS.CGImage_width := fst;
     IOS.CGImage_height := snd;
     IOS.perform := fun _ => answer |}.

Definition candidate (s : string) (confidence : float) : Vision.VNRecognizedText :=
  {| Vision.string_ := s; Vision.confidence := confidence |}.

Definition quarter : CGRect.t :=
  {| CGRect.origin_x := 0.25; CGRect.origin_y := 0.25;
     CGRect.width := 0.5; CGRect.height := 0.5 |}.

Definition observation (candidates : list Vision.VNRecognizedText)
  : Vision.VNRecognizedTextObservation :=
  {| Vision.candidates := candidates; Vision.boundingBox := quarter |}.

Definition entity (text : string) (confidence : float)
  : Unified.LegacyRecognizedText :=
  {| Unified.text := text;
     Unified.confidence := confidence;
     Unified.boundingBox :=
       {| Unified.x := 0; Unified.y := 0;
          Unified.width := 1; Unified.height := 1 |} |}.

End Sample.
(** ** The public types ([types.ts]) *)

Module Types.

(** The error codes re-exported by [index.ts]. *)
Inductive OCRErrorCode : Type :=
| INVALID_IMAGE
| INVALID_BASE64
| PROCESSING_FAILED
| TIMEOUT
| UNSUPPORTED_FORMAT
| NETWORK_ERROR
| UNKNOWN_ERROR.

Definition value (c : OCRErrorCode) : string :=
  match c with
  | INVALID_IMAGE => "INVALID_IMAGE"
  | INVALID_BASE64 => "INVALID_BASE64"
  | PROCESSING_FAILED => "PROCESSING_FAILED"
  | TIMEOUT => "TIMEOUT"
  | UNSUPPORTED_FORMAT => "UNSUPPORTED_FORMAT"
  | NETWORK_ERROR => "NETWORK_ERROR"
  | UNKNOWN_ERROR => "UNKNOWN_ERROR"
  end.

End Types.

(** ** The example application ([example/App.tsx]) *)

Module App.

(** [PermissionStatus] of the image picker. *)
Inductive PermissionStatus : Type :=
| GRANTED
| DENIED
| UNDETERMINED.

Definition PermissionStatus_eqb (a b : PermissionStatus) : bool :=
  match a, b with
  | GRANTED, GRANTED | DENIED, DENIED | UNDETERMINED, UNDETERMINED => true
  | _, _ => false
  end.

(** ['file' | 'base64'] *)
Inductive ProcessingMethod : Type :=
| Method_file
| Method_base64.

(** The component's state, and the [Alert.alert(title, message)] calls made
    so far, oldest first. *)
Record State : Type := {
  result : list string;
  imageUri : option string;
  cameraPermission : option PermissionStatus;
  galleryPermission : option PermissionStatus;
  isLoading : bool;
  processingMethod : ProcessingMethod;
  alerts : list (string * string)
}.

Definition setResult (v : list string) (st : State) : State :=
  {| result := v; imageUri := imageUri st;
     cameraPermission := cameraPermission st;
     galleryPermission := galleryPermission st;
     isLoading := isLoading st; processingMethod := processingMethod st;
     alerts := alerts st |}.

Definition setImageUri (v : option string) (st : State) : State :=
  {| result := result st; imageUri := v;
     cameraPermission := cameraPermission st;
     galleryPermission := galleryPermission st;
     isLoading := isLoading st; processingMethod := processingMethod st;
     alerts := alerts st |}.

Definition setCameraPermission (v : option PermissionStatus) (st : State) : State :=
  {| result := result st; imageUri := imageUri st;
     cameraPermission := v;
     galleryPermission := galleryPermission st;
     isLoading := isLoading st; processingMethod := processingMethod st;
     alerts := alerts st |}.

Definition setGalleryPermission (v : option PermissionStatus) (st : State) : State :=
  {| result := result st; imageUri := imageUri st;
     cameraPermission := cameraPermission st;
     galleryPermission := v;
     isLoading := isLoading st; processingMethod := processingMethod st;
     alerts := alerts st |}.

Definition setIsLoading (v : bool) (st : State) : State :=
  {| result := result st; imageUri := imageUri st;
     cameraPermission := cameraPermission st;
     galleryPermission := galleryPermission st;
     isLoading := v; processingMethod := processingMethod st;
     alerts := alerts st |}.

Definition setProcessingMethod (v : ProcessingMethod) (st : State) : State :=
  {| result := result st; imageUri := imageUri st;
     cameraPermission := cameraPermission st;
     galleryPermission := galleryPermission st;
     isLoading := isLoading st; processingMethod := v;
     alerts := alerts st |}.

(** [Alert.alert(title, message)] *)
Definition alert (title message : string) (st : State) : State :=
  {| result := result st; imageUri := imageUri st;
     cameraPermission := cameraPermission st;
     galleryPermission := galleryPermission st;
     isLoading := isLoading st; processingMethod := processingMethod st;
     alerts := (alerts st ++ [(title, message)])%list |}.

(** The string a truthy [string | undefined | null] holds: the empty string
    is falsy. *)
Definition truthyValue (s : option string) : option string :=
  match s with
  | Some v => if String.eqb v "" then None else Some v
  | None => None
  end.

Definition truthy (s : option string) : bool := isSome (truthyValue s).

(** An asset and a result of the image picker, as the handlers read them. *)
Record Asset : Type := {
  uri : string;
  base64 : option string
}.

Record ImagePickerResult : Type := {
  canceled : bool;
  assets : option (list Asset)
}.

(** The calls of [expo-image-picker]: each one resolves, or rejects with a
    thrown value. *)
Record Picker (X : Type) : Type := {
  requestCameraPermissionsAsync : X + PermissionStatus;
  requestMediaLibraryPermissionsAsync : X + PermissionStatus;
  launchCameraAsync : X + ImagePickerResult;
  launchImageLibraryAsync : X + ImagePickerResult
}.

Arguments requestCameraPermissionsAsync {X} p.
Arguments requestMediaLibraryPermissionsAsync {X} p.
Arguments launchCameraAsync {X} p.
Arguments launchImageLibraryAsync {X} p.

Section Component.
Context {I Q E X : Type}.

(** The package the application imports. *)
Variable ExpoTextExtractor : JS.NativeModule (Run I (list string) E) Q.

(** [error instanceof Error], with [error.message], for a rejection of
    the package and for a value thrown by the picker. *)
Variable errorMessage : E -> option string.
Variable thrownMessage : X -> option string.

Variable picker : Picker X.

(** [await] of an extraction inside the [try] of [processImage]. *)
Definition awaitTexts (run : Run I (list string) E) (st : State) : State :=
  match settled run with
  | Resolved extractedTexts => setResult extractedTexts st
  | Rejected error =>
      match errorMessage error with
      | Some message => alert "Text Extraction Error" message st
      | None => st
      end
  end.

Definition processImage (path base64 : option string) (st : State) : State :=
  if negb (truthy path) && negb (truthy base64) then st
  else
    let st := if truthy path then setImageUri path st else st in
    let st := setIsLoading true st in
    let st := setResult [] st in
    if JS.isSupported ExpoTextExtractor then
      let st :=
        match truthyValue base64 with
        | Some data =>
            let st := setProcessingMethod Method_base64 st in
            awaitTexts (JS.extractTextFromImageData ExpoTextExtractor data) st
        | None =>
            match truthyValue path with
            | Some file =>
                let st := setProcessingMethod Method_file st in
                awaitTexts (JS.extractTextFromImage ExpoTextExtractor file) st
            | None =>
                alert "Text Extraction Error" "No image data provided" st
            end
        end in
      setIsLoading false st
    else
      let st := setIsLoading false st in
      alert "Not Supported" "Text extraction is not supported on this device" st.

(** What both handlers do with the picker's result. *)
Definition processResult (result : ImagePickerResult) (st : State) : State :=
  if negb (canceled result) then
    match
      match assets result with
      | Some l => hd_error l
      | None => None
      end
    with
    | Some asset =>
        if truthy (base64 asset) then
          processImage (Some (uri asset)) (base64 asset) st
        else processImage (Some (uri asset)) None st
    | None => st
    end
  else st.

Definition handleImagePick (st : State) : State :=
  let catch (error : X) (st : State) : State :=
    match thrownMessage error with
    | Some message => alert "Image Pick Error" message st
    | None => st
    end in
  let launch (st : State) : State :=
    match launchImageLibraryAsync picker with
    | inl error => catch error st
    | inr result => processResult result st
    end in
  match galleryPermission st with
  | Some GRANTED => launch st
  | _ =>
      let st :=
        alert "Permission Required"
          "Please grant access to your photo library to use this feature" st in
      match requestMediaLibraryPermissionsAsync picker with
      | inl error => catch error st
      | inr status =>
          let st := setGalleryPermission (Some status) st in
          if negb (PermissionStatus_eqb status GRANTED) then st
          else launch st
      end
  end.

Definition handleCameraCapture (st : State) : State :=
  let catch (error : X) (st : State) : State :=
    let st :=
      match thrownMessage error with
      | Some message => alert "Camera Error" message st
      | None => st
      end in
    setIsLoading false st in
  let launch (st : State) : State :=
    match launchCameraAsync picker with
    | inl error => catch error st
    | inr result => processResult result st
    end in
  match cameraPermission st with
  | Some GRANTED => launch st
  | _ =>
      let st :=
        alert "Permission Required"
          "Please grant access to your camera to use this feature" st in
      match requestCameraPermissionsAsync picker with
      | inl error => catch error st
      | inr status =>
          let st := setCameraPermission (Some status) st in
          if negb (PermissionStatus_eqb status GRANTED) then st
          else launch st
      end
  end.

End Component.

(** What the component renders. *)
Inductive Preview : Type :=
| Image (uri : string)
| NoImageSelected.

Inductive Results : Type :=
| ExtractingText
| Lines (method : string) (lines : list string)
| NoTextDetected.

Record View : Type := {
  buttonsDisabled : bool;
  preview : Preview;
  results : Results
}.

Definition render (st : State) : View :=
  {| buttonsDisabled := isLoading st;
     preview :=
       match truthyValue (imageUri st) with
       | Some uri => Image uri
       | None => NoImageSelected
       end;
     results :=
       if isLoading st then ExtractingText
       else if (0 <? List.length (result st))%nat then
         Lines match processingMethod st with
               | Method_base64 => "Base64 Data"
               | Method_file => "File URI"
               end
               (result st)
       else NoTextDetected |}.

Definition initial : State :=
  {| result := []; imageUri := None;
     cameraPermission := None; galleryPermission := None;
     isLoading := false; processingMethod := Method_file;
     alerts := [] |}.

End App.

(** [env] with another file system. *)
Definition withFileExists (env : Android.Env) (exists_ : string -> bool)
  : Android.Env :=
  {| Android.ReactContext := Android.ReactContext env;
     Android.InputImage := Android.InputImage env;
     Android.Bitmap := Android.Bitmap env;
     Android.reactContext := Android.reactContext env;
     Android.File_exists := exists_;
     Android.InputImage_fromFilePath := Android.InputImage_fromFilePath env;
     Android.Base64_decode := Android.Base64_decode env;
     Android.BitmapFactory_decodeByteArray :=
       Android.BitmapFactory_decodeByteArray env;
     Android.InputImage_fromBitmap := Android.InputImage_fromBitmap env;
     Android.process := Android.process env |}.

(** The range of a Java [int]. *)
Definition javaInt (z : Z) : Prop := (- 2147483648 <= z < 2147483648)%Z.

(** How often a run invoked the recognizer: never more than once, and
    once when it resolved. *)
Definition recognizesOnce {I A E : Type} (run : Run I A E) : Prop :=
  List.length (recognized run) <= 1 /\
  (forall value, settled run = Resolved value ->
                 List.length (recognized run) = 1).

(** [plain] is [detailed] with every entry cut down by [text]: the same
    images recognized, and resolved together with matching values. *)
Definition agree {I A B E : Type} (text : B -> A)
    (plain : Run I (list A) E) (detailed : Run I (list B) E) : Prop :=
  recognized plain = recognized detailed /\
  (forall results,
      settled detailed = Resolved results ->
      settled plain = Resolved (map text results)) /\
  (forall texts,
      settled plain = Resolved texts ->
      exists results,
        settled detailed = Resolved results /\
        map text results = texts).

(** How a run ends: rejected before any recognition with an error that
    satisfies [P], rejected by the recognition of [image], or resolved
    after the recognition of [image]. *)
Definition rejectedBefore {I A E : Type} (P : E -> Prop) (run : Run I A E)
  : Prop :=
  recognized run = [] /\ exists e, settled run = Rejected e /\ P e.

Definition rejectedIn {I A E : Type} (image : I) (P : E -> Prop)
    (run : Run I A E) : Prop :=
  recognized run = [image] /\ exists e, settled run = Rejected e /\ P e.

Definition resolvedIn {I A E : Type} (image : I) (run : Run I A E) : Prop :=
  recognized run = [image] /\ exists value, settled run = Resolved value.

(** A Kotlin rejection with this code, and with this code and message. *)
Definition coded (code : string) (e : Android.CodedException) : Prop :=
  Android.code e = Some code.

Definition carries (code message : string) (e : Android.CodedException)
  : Prop :=
  Android.code e = Some code /\ Android.codedMessage e = message.

(** Every way a file call of the Kotlin module ends, with its cause:
    nothing to recognize, a recognizer that fails, or one that answers.
    [failure error] is what is said of the rejection when the recognizer
    fails with [error]. *)
Definition androidFileOutcome (env : Android.Env) (uriString : string)
    (failure : Android.Throwable -> Android.CodedException -> Prop)
    {A : Type} (run : Android.Promise env A) : Prop :=
  ((forall inputImage, ~ androidValidImage env uriString inputImage) /\
   rejectedBefore (coded "UNKNOWN_ERROR") run) \/
  (exists inputImage error,
      androidValidImage env uriString inputImage /\
      Android.process env inputImage = inl error /\
      rejectedIn inputImage (failure error) run) \/
  (exists inputImage visionText,
      androidValidImage env uriString inputImage /\
      Android.process env inputImage = inr visionText /\
      resolvedIn inputImage run).




(** ** Strings *)

Section StringFacts.

Lemma prefix_occurs (p s : string) :
  prefix p s = true <-> exists t, s = p ++ t.
Proof.
  revert s; induction p as [|c p IH]; intros s.
  - split; [intros _; now exists s | intros _; now destruct s].
  - destruct s as [|d s]; simpl.
    + split; [discriminate | intros [t Ht]; discriminate].
    + destruct (ascii_dec c d) as [->|Hcd].
      * rewrite IH. split; intros [t Ht]; exists t; [now subst | now injection Ht].
      * split; [discriminate | intros [t Ht]; injection Ht; congruence].
Qed.

Lemma substring_whole (s : string) : substring 0 (String.length s) s = s.
Proof. induction s; simpl; congruence. Qed.

Lemma substring_head (a b : string) : substring 0 (String.length a) (a ++ b) = a.
Proof.
  induction a; simpl; [now destruct b | congruence].
Qed.

Lemma substring_skip (a b : string) (n m : nat) :
  substring (String.length a + n) m (a ++ b) = substring n m b.
Proof. induction a; simpl; auto. Qed.

Lemma length_append (a b : string) : String.length (a ++ b) = String.length a + String.length b.
Proof. induction a; simpl; auto. Qed.

Lemma indexOf_here (pat s : string) :
  prefix pat s = true -> JS.indexOf pat s = Some 0.
Proof. intros H. destruct s; cbn [JS.indexOf]; now rewrite H. Qed.

Lemma indexOf_first (pat : string) :
  forall pre s, firstOccurrence pat pre s ->
                JS.indexOf pat s = Some (String.length pre).
Proof.
  induction pre as [|c pre IH]; intros s [[post Hs] Hmin]; subst s.
  - apply indexOf_here, prefix_occurs. now exists post.
  - cbn [append JS.indexOf].
    destruct (prefix pat (String c (pre ++ pat ++ post))) eqn:Hp.
    + apply prefix_occurs in Hp. destruct Hp as [t Ht].
      specialize (Hmin "" (ex_intro _ t Ht)). simpl in Hmin. lia.
    + rewrite (IH (pre ++ pat ++ post)); [reflexivity|].
      split; [now exists post|].
      intros pre' [post' H'].
      specialize (Hmin (String c pre')).
      simpl in Hmin. apply le_S_n, Hmin.
      exists post'. simpl. now rewrite H'.
Qed.

Lemma indexOf_absent (pat : string) :
  forall s, absent pat s -> JS.indexOf pat s = None.
Proof.
  induction s as [|c s IH]; intros Ha; cbn [JS.indexOf].
  - destruct (prefix pat "") eqn:Hp; [|reflexivity].
    apply prefix_occurs in Hp. destruct Hp as [t Ht].
    exfalso. apply (Ha ""). now exists t.
  - destruct (prefix pat (String c s)) eqn:Hp.
    + apply prefix_occurs in Hp. destruct Hp as [t Ht].
      exfalso. apply (Ha ""). now exists t.
    + rewrite IH; [reflexivity|].
      intros pre [post H]. apply (Ha (String c pre)).
      exists post. simpl. now rewrite H.
Qed.

(** Conversely, a search that fails shows that the pattern is absent. *)
Lemma indexOf_None_absent (pat : string) :
  forall s, JS.indexOf pat s = None -> absent pat s.
Proof.
  induction s as [|c s IH]; cbn [JS.indexOf]; intros Hn pre [post H].
  - destruct (prefix pat "") eqn:Hp; [discriminate|].
    destruct pre; [|discriminate H].
    assert (prefix pat "" = true) by (apply prefix_occurs; now exists post).
    congruence.
  - destruct (prefix pat (String c s)) eqn:Hp; [discriminate|].
    destruct pre as [|d pre].
    + assert (prefix pat (String c s) = true)
        by (apply prefix_occurs; now exists post).
      congruence.
    + destruct (JS.indexOf pat s) eqn:E; [discriminate|].
      injection H as _ H. apply (IH eq_refl pre). now exists post.
Qed.

Lemma replace_first (pat rep pre post : string) :
  firstOccurrence pat pre (pre ++ pat ++ post) ->
  JS.replace (pre ++ pat ++ post) pat rep = pre ++ rep ++ post.
Proof.
  intros Hf. unfold JS.replace. rewrite (indexOf_first _ _ _ Hf). cbv zeta.
  rewrite substring_head. f_equal. f_equal.
  rewrite !length_append.
  replace (String.length pre + (String.length pat + String.length post)
           - (String.length pre + String.length pat))
    with (String.length post) by lia.
  rewrite substring_skip.
  replace (String.length pat) with (String.length pat + 0) at 1 by lia.
  rewrite substring_skip. apply substring_whole.
Qed.

Lemma replace_absent (pat rep s : string) :
  absent pat s -> JS.replace s pat rep = s.
Proof. intros Ha. unfold JS.replace. now rewrite indexOf_absent. Qed.

End StringFacts.

(** C9: [extractTextFromImage] and [extractTextFromImageWithDetails] forward
    to the native module the uri with the first occurrence of ["file://"]
    removed, wherever it stands ([pre] is arbitrary, later occurrences in
    [post] are kept); a uri without ["file://"] is forwarded verbatim. *)
Theorem C9_file_prefix_first_occurrence_removed :
  forall (P Q : Type) (M : JS.NativeModule P Q) (uri : string),
    (forall pre post,
        uri = pre ++ "file://" ++ post ->
        firstOccurrence "file://" pre uri ->
        JS.extractTextFromImage M uri
          = JS.native_extractTextFromImage M (pre ++ post) /\
        JS.extractTextFromImageWithDetails M uri
          = JS.native_extractTextFromImageWithDetails M (pre ++ post)) /\
    (absent "file://" uri ->
        JS.extractTextFromImage M uri = JS.native_extractTextFromImage M uri /\
        JS.extractTextFromImageWithDetails M uri
          = JS.native_extractTextFromImageWithDetails M uri).
Proof.
  intros P Q M uri. split.
  - intros pre post -> Hf.
    unfold JS.extractTextFromImage, JS.extractTextFromImageWithDetails.
    cbv zeta. rewrite (replace_first "file://" "" pre post Hf). simpl. auto.
  - intros Ha.
    unfold JS.extractTextFromImage, JS.extractTextFromImageWithDetails.
    cbv zeta. rewrite (replace_absent "file://" "" uri Ha). auto.
Qed.

(** The identity module: each native function returns its argument. *)
Lemma C9_witness :
  let M :=
    {| JS.isSupported := true;
       JS.native_extractTextFromImage := fun uri => uri;
       JS.native_extractTextFromImageData := fun base64Data => base64Data;
       JS.native_extractTextFromImageWithDetails := fun uri => uri;
       JS.native_extractTextFromImageDataWithDetails :=
         fun base64Data => base64Data |} in
  (JS.extractTextFromImage M "/a/file://b/file://c" = "/a/b/file://c" /\
   JS.extractTextFromImageWithDetails M "/a/file://b/file://c"
   = "/a/b/file://c") /\
  (JS.extractTextFromImage M "content://media/7" = "content://media/7" /\
   JS.extractTextFromImageWithDetails M "content://media/7"
   = "content://media/7").
Proof.
  split.
  - apply (proj1 (C9_file_prefix_first_occurrence_removed string string
                    {| JS.isSupported := true;
                       JS.native_extractTextFromImage := fun uri => uri;
                       JS.native_extractTextFromImageData := fun d => d;
                       JS.native_extractTextFromImageWithDetails := fun uri => uri;
                       JS.native_extractTextFromImageDataWithDetails := fun d => d |}
                    "/a/file://b/file://c") "/a/" "b/file://c").
    + reflexivity.
    + split; [now exists "b/file://c"|].
      intros pre' [post' H].
      destruct pre' as [|c1 [|c2 [|c3 pre']]]; simpl; try lia;
        simpl in H; discriminate H.
  - apply (proj2 (C9_file_prefix_first_occurrence_removed string string
                    {| JS.isSupported := true;
                       JS.native_extractTextFromImage := fun uri => uri;
                       JS.native_extractTextFromImageData := fun d => d;
                       JS.native_extractTextFromImageWithDetails := fun uri => uri;
                       JS.native_extractTextFromImageDataWithDetails := fun d => d |}
                    "content://media/7")).
    apply indexOf_None_absent. reflexivity.
Defined.

(** ** Lists *)

Section ListFacts.
Context {A B : Type}.

Lemma compactMap_Forall2 (f : A -> option B) (R : A -> B -> Prop) :
  (forall a b, f a = Some b -> R a b) ->
  forall l,
    Forall2 R (filter (fun a => isSome (f a)) l)
            (compactMap f l).
Proof.
  intros HR. induction l as [|a l IH]; simpl; [constructor|].
  destruct (f a) as [b|] eqn:E; [constructor; auto | assumption].
Qed.

Lemma compactMap_length (f : A -> option B) (l : list A) :
  List.length (compactMap f l)
  = List.length (filter (fun a => isSome (f a)) l).
Proof.
  induction l as [|a l IH]; simpl; [reflexivity|].
  destruct (f a); simpl; congruence.
Qed.

Lemma map_Forall2 (f : A -> B) (R : A -> B -> Prop) :
  (forall a, R a (f a)) -> forall l, Forall2 R l (map f l).
Proof. intros HR. induction l; simpl; constructor; auto. Qed.

Lemma filter_Subsequence (p : A -> bool) (l : list A) :
  Subsequence (filter p l) l.
Proof.
  induction l as [|a l IH]; simpl; [constructor|].
  destruct (p a); constructor; assumption.
Qed.

End ListFacts.

(** ** Order on binary64 values *)

Section FloatOrder.

Lemma SFcompare_Lt_Gt (a b : spec_float) :
  SFcompare a b = Some Lt -> SFcompare b a = Some Gt.
Proof.
  destruct a as [sa|sa| |sa ma ea], b as [sb|sb| |sb mb eb]; simpl;
    try discriminate;
    try (destruct sa; try destruct sb; simpl; congruence).
  rewrite (Z.compare_antisym ea eb).
  change (PosDef.Pos.compare_cont Eq mb ma) with (Pos.compare mb ma).
  change (PosDef.Pos.compare_cont Eq ma mb) with (Pos.compare ma mb).
  rewrite (Pos.compare_antisym ma mb).
  destruct sa, sb; try congruence;
    destruct (ea ?= eb)%Z; simpl; try congruence;
    destruct (ma ?= mb)%positive; simpl; congruence.
Qed.

(** A value below the threshold is not at or above it. *)
Lemma below_not_atleast (c t : float) :
  (c <? t)%float = true -> (t <=? c)%float = false.
Proof.
  rewrite FloatAxioms.ltb_spec, FloatAxioms.leb_spec. unfold SFltb, SFleb.
  destruct (SFcompare (Prim2SF c) (Prim2SF t)) as [[| |]|] eqn:E;
    try discriminate.
  intros _. now rewrite (SFcompare_Lt_Gt _ _ E).
Qed.

Lemma atleast_not_below (c t : float) :
  (t <=? c)%float = true -> (c <? t)%float = false.
Proof.
  intros H. destruct (c <? t)%float eqn:E; [|reflexivity].
  apply below_not_atleast in E. congruence.
Qed.

End FloatOrder.

(** ** Runs of the Kotlin module *)

Section AndroidRuns.
Variable env : Android.Env.

Lemma extractTextFromImage_run (uriString : string) :
  AndroidRun env
    (fun visionText => map MLKit.text (MLKit.textBlocks visionText))
    (fun error => Android.CodedException_message_cause "err" error)
    (Android.extractTextFromImage env uriString).
Proof.
  unfold Android.extractTextFromImage.
  destruct (Android.reactContext env) as [context|]; [|constructor].
  cbv zeta.
  destruct (prefix "content://" uriString);
    [|destruct (negb (Android.File_exists env uriString)); [constructor|]];
    destruct (Android.InputImage_fromFilePath env context _); constructor.
Qed.

Lemma extractTextFromImageWithDetails_run (uriString : string) :
  AndroidRun env
    (fun visionText => map Android.details (MLKit.textBlocks visionText))
    recognitionFailed
    (Android.extractTextFromImageWithDetails env uriString).
Proof.
  unfold Android.extractTextFromImageWithDetails.
  destruct (Android.reactContext env) as [context|]; [|constructor].
  cbv zeta.
  destruct (prefix "content://" uriString);
    [|destruct (negb (Android.File_exists env uriString)); [constructor|]];
    destruct (Android.InputImage_fromFilePath env context _); constructor.
Qed.

Lemma extractTextFromImageData_run (base64Data : string) :
  AndroidRun env
    (fun visionText => map MLKit.text (MLKit.textBlocks visionText))
    recognitionFailed
    (Android.extractTextFromImageData env base64Data).
Proof.
  unfold Android.extractTextFromImageData.
  destruct (Android.Base64_decode env base64Data) as [error|imageBytes];
    [constructor|].
  destruct (Android.BitmapFactory_decodeByteArray env imageBytes);
    constructor.
Qed.

Lemma extractTextFromImageDataWithDetails_run (base64Data : string) :
  AndroidRun env
    (fun visionText => map Android.details (MLKit.textBlocks visionText))
    recognitionFailed
    (Android.extractTextFromImageDataWithDetails env base64Data).
Proof.
  unfold Android.extractTextFromImageDataWithDetails.
  destruct (Android.Base64_decode env base64Data) as [error|imageBytes];
    [constructor|].
  destruct (Android.BitmapFactory_decodeByteArray env imageBytes);
    constructor.
Qed.

Context {A : Type} (onSuccess : MLKit.Text -> A)
        (onFailure : Android.Throwable -> Android.CodedException).

(** A resolved run went through the recognizer, which succeeded. *)
Lemma AndroidRun_resolved (run : Android.Promise env A) (value : A) :
  AndroidRun env onSuccess onFailure run ->
  settled run = Resolved value ->
  exists inputImage visionText,
    recognized run = [inputImage] /\
    Android.process env inputImage = inr visionText /\
    value = onSuccess visionText.
Proof.
  intros [error| |inputImage]; simpl; try discriminate.
  destruct (Android.process env inputImage) as [error|visionText] eqn:E;
    [discriminate|].
  intros [= <-]. now exists inputImage, visionText.
Qed.

(** Once the recognizer has answered, the run resolves with its answer. *)
Lemma AndroidRun_recognized (run : Android.Promise env A) inputImage visionText :
  AndroidRun env onSuccess onFailure run ->
  recognized run = [inputImage] ->
  Android.process env inputImage = inr visionText ->
  settled run = Resolved (onSuccess visionText).
Proof.
  intros [error| |inputImage']; simpl; try discriminate.
  intros [= ->] ->. reflexivity.
Qed.

(** A rejected run failed before recognition, or in the recognizer. *)
Lemma AndroidRun_rejected (run : Android.Promise env A) e :
  AndroidRun env onSuccess onFailure run ->
  settled run = Rejected e ->
  (recognized run = [] /\
   (Android.code e = Some "UNKNOWN_ERROR" \/
    Android.code e = Some "INVALID_IMAGE")) \/
  (exists inputImage error,
      recognized run = [inputImage] /\
      Android.process env inputImage = inl error /\
      e = onFailure error).
Proof.
  intros [error| |inputImage]; simpl.
  - intros [= <-]. left. auto.
  - intros [= <-]. left. auto.
  - destruct (Android.process env inputImage) as [error|visionText] eqn:E;
      [|discriminate].
    intros [= <-]. right. now exists inputImage, error.
Qed.

End AndroidRuns.

(** ** Runs of the Swift module *)

Section IOSRuns.
Variable env : IOS.Env.

Lemma ios_extractTextFromImage_run (url : string) :
  IOSRun env (fun _ => IOS.recognizedTexts)
         (IOS.extractTextFromImage env url).
Proof.
  unfold IOS.extractTextFromImage.
  destruct (IOS.Data_contentsOf env url) as [error|imageData]; [constructor|].
  cbv zeta. destruct (IOS.image_cgImage env _) as [cgImage|].
  - exact (IOSRun_recognize env (fun _ => IOS.recognizedTexts) cgImage).
  - constructor.
Qed.

Lemma ios_extractTextFromImageData_run (base64Data : string) :
  IOSRun env (fun _ => IOS.recognizedTexts)
         (IOS.extractTextFromImageData env base64Data).
Proof.
  unfold IOS.extractTextFromImageData.
  destruct (IOS.Data_base64Encoded env base64Data) as [imageData|];
    [|constructor].
  cbv zeta. destruct (IOS.image_cgImage env _) as [cgImage|].
  - exact (IOSRun_recognize env (fun _ => IOS.recognizedTexts) cgImage).
  - constructor.
Qed.

Lemma ios_extractTextFromImageWithDetails_run (url : string) :
  IOSRun env (fun cgImage => compactMap (IOS.details env cgImage))
         (IOS.extractTextFromImageWithDetails env url).
Proof.
  unfold IOS.extractTextFromImageWithDetails.
  destruct (IOS.Data_contentsOf env url) as [error|imageData]; [constructor|].
  cbv zeta. destruct (IOS.image_cgImage env _) as [cgImage|].
  - exact (IOSRun_recognize env
             (fun cgImage => compactMap (IOS.details env cgImage)) cgImage).
  - constructor.
Qed.

Lemma ios_extractTextFromImageDataWithDetails_run (base64Data : string) :
  IOSRun env (fun cgImage => compactMap (IOS.details env cgImage))
         (IOS.extractTextFromImageDataWithDetails env base64Data).
Proof.
  unfold IOS.extractTextFromImageDataWithDetails.
  destruct (IOS.Data_base64Encoded env base64Data) as [imageData|];
    [|constructor].
  cbv zeta. destruct (IOS.image_cgImage env _) as [cgImage|].
  - exact (IOSRun_recognize env
             (fun cgImage => compactMap (IOS.details env cgImage)) cgImage).
  - constructor.
Qed.

Context {A : Type}
        (completion : IOS.CGImage env ->
                      list Vision.VNRecognizedTextObservation -> list A).

(** A resolved run performed the request on a decoded image; its value
    is the completion's, or empty when Vision gave no observations. *)
Lemma IOSRun_resolved (run : IOS.Promise env (list A)) (value : list A) :
  IOSRun env completion run ->
  settled run = Resolved value ->
  exists cgImage,
    recognized run = [cgImage] /\
    ((IOS.perform env cgImage = inr None /\ value = []) \/
     (exists observations,
         IOS.perform env cgImage = inr (Some observations) /\
         value = completion cgImage observations)).
Proof.
  intros [error|cgImage]; simpl; [discriminate|].
  destruct (IOS.perform env cgImage) as [error|[observations|]] eqn:E;
    [discriminate| |]; intros [= <-]; exists cgImage; split; auto.
  right. now exists observations.
Qed.

(** Once Vision has answered with observations, the run resolves. *)
Lemma IOSRun_recognized (run : IOS.Promise env (list A)) cgImage observations :
  IOSRun env completion run ->
  recognized run = [cgImage] ->
  IOS.perform env cgImage = inr (Some observations) ->
  settled run = Resolved (completion cgImage observations).
Proof.
  intros [error|cgImage']; simpl; [discriminate|].
  intros [= ->] ->. reflexivity.
Qed.

(** The entry built for an observation that has a candidate. *)
Lemma details_entry (cgImage : IOS.CGImage env) observation entry :
  IOS.details env cgImage observation = Some entry ->
  IOS.boundingBox entry
  = IOS.normalizedToPixel (Vision.boundingBox observation)
                          (imageSize env cgImage).
Proof.
  unfold IOS.details.
  destruct (hd_error (Vision.topCandidates 1 observation)); [|discriminate].
  cbv zeta. intros [= <-]. reflexivity.
Qed.

Lemma details_hasCandidate (cgImage : IOS.CGImage env) observation :
  isSome (IOS.details env cgImage observation) = hasCandidate observation.
Proof.
  unfold IOS.details, hasCandidate.
  now destruct (Vision.topCandidates 1 observation).
Qed.

Lemma recognizedTexts_hasCandidate observation :
  isSome (option_map Vision.string_
            (hd_error (Vision.topCandidates 1 observation)))
  = hasCandidate observation.
Proof.
  unfold hasCandidate. now destruct (Vision.topCandidates 1 observation).
Qed.

End IOSRuns.

(** ** Bounding boxes of the detailed results *)

Section DetailedResults.

Lemma android_detailed_run (env : Android.Env) (input : string) run :
  In run (detailedCalls (Android.ExpoTextExtractorModule env) input) ->
  AndroidRun env
    (fun visionText => map Android.details (MLKit.textBlocks visionText))
    recognitionFailed run.
Proof.
  intros [<-|[<-|[]]].
  - apply extractTextFromImageWithDetails_run.
  - apply extractTextFromImageDataWithDetails_run.
Qed.

Lemma ios_detailed_run (env : IOS.Env) (input : string) run :
  In run (detailedCalls (IOS.ExpoTextExtractorModule env) input) ->
  IOSRun env (fun cgImage => compactMap (IOS.details env cgImage)) run.
Proof.
  intros [<-|[<-|[]]].
  - apply ios_extractTextFromImageWithDetails_run.
  - apply ios_extractTextFromImageDataWithDetails_run.
Qed.

Lemma normalizedToPixel_formula (normalized : CGRect.t) (size : CGSize.t) :
  scaledAndFlipped (CGSize.width size) (CGSize.height size) normalized
                   (IOS.normalizedToPixel normalized size).
Proof. repeat split. Qed.

Lemma ios_entries (env : IOS.Env) (cgImage : IOS.CGImage env) observations :
  Forall2
    (fun observation entry =>
       IOS.boundingBox entry
       = IOS.normalizedToPixel (Vision.boundingBox observation)
                               (imageSize env cgImage))
    (filter hasCandidate observations)
    (compactMap (IOS.details env cgImage) observations).
Proof.
  rewrite (filter_ext _ _ (fun o => eq_sym (details_hasCandidate env cgImage o))).
  apply compactMap_Forall2. intros o e. apply details_entry.
Qed.

End DetailedResults.

(** C1, as stated, fails on Android: a text block without a bounding box is
    returned with a box whose four members are null, not numbers. *)
Lemma C1_counterexample :
  exists results,
    settled (JS.extractTextFromImageWithDetails
               (Android.ExpoTextExtractorModule
                  (Sample.android (inr Sample.page)))
               "file:///photo.jpg")
    = Resolved results /\
    ~ Forall (fun entry => numeric (Android.boundingBox entry)) results.
Proof.
  exists (map (Android.details) (MLKit.textBlocks Sample.page)).
  split; [reflexivity|].
  intros H. inversion H as [|e1 l1 _ H1]; subst.
  inversion H1 as [|e2 l2 [x [y [w [h Hbox]]]] _]; subst.
  discriminate Hbox.
Qed.

(** C1, amended: every entry of a detailed call is a box [{x, y, width,
    height}]; on Android the box of a block that has a native rect is that
    rect passed through ([x = left], [y = top], [width = width()],
    [height = height()]); on iOS every entry's box is its observation's
    normalized rect transformed by [x * W], [(1 - y - h) * H], [w * W],
    [h * H], with [W] and [H] the pixel size of the image. *)
Theorem C1_detailed_boxes_in_pixel_space :
  (forall (env : Android.Env) (input : string) run results,
      In run (detailedCalls (Android.ExpoTextExtractorModule env) input) ->
      settled run = Resolved results ->
      exists inputImage visionText,
        recognized run = [inputImage] /\
        Android.process env inputImage = inr visionText /\
        Forall2
          (fun textBlock entry =>
             forall r, MLKit.boundingBox textBlock = Some r ->
                       Android.boundingBox entry = passedThrough r)
          (MLKit.textBlocks visionText) results) /\
  (forall (env : IOS.Env) (input : string) run results,
      In run (detailedCalls (IOS.ExpoTextExtractorModule env) input) ->
      settled run = Resolved results ->
      exists cgImage answer,
        recognized run = [cgImage] /\
        IOS.perform env cgImage = inr answer /\
        Forall2
          (fun observation entry =>
             scaledAndFlipped
               (Vision.CGFloat (IOS.CGImage_width env cgImage))
               (Vision.CGFloat (IOS.CGImage_height env cgImage))
               (Vision.boundingBox observation) (IOS.boundingBox entry))
          (filter hasCandidate (observed answer)) results).
Proof.
  split.
  - intros env input run results Hin Hres.
    destruct (AndroidRun_resolved env _ _ run results
                (android_detailed_run env input run Hin) Hres)
      as (inputImage & visionText & Hrec & Hproc & ->).
    exists inputImage, visionText. repeat split; auto.
    apply map_Forall2. intros textBlock r Hr.
    unfold Android.details, passedThrough. simpl. now rewrite Hr.
  - intros env input run results Hin Hres.
    destruct (IOSRun_resolved env _ run results
                (ios_detailed_run env input run Hin) Hres)
      as (cgImage & Hrec & [[Hperf ->]|(observations & Hperf & ->)]).
    + exists cgImage, None. repeat split; auto.
    + exists cgImage, (Some observations). repeat split; auto. simpl.
      eapply Forall2_impl; [|apply ios_entries].
      intros o e ->. apply normalizedToPixel_formula.
Qed.

(** The amended C1 at work: a block with a rect on Android, and an
    observation on a 200 by 100 image on iOS. *)
Lemma C1_witness :
  (exists inputImage visionText,
      recognized (JS.extractTextFromImageDataWithDetails
                    (Android.ExpoTextExtractorModule
                       (Sample.android (inr Sample.page))) "AAAA")
      = [inputImage] /\
      Android.process (Sample.android (inr Sample.page)) inputImage
      = inr visionText /\
      Forall2
        (fun textBlock entry =>
           forall r, MLKit.boundingBox textBlock = Some r ->
                     Android.boundingBox entry = passedThrough r)
        (MLKit.textBlocks visionText)
        (map Android.details (MLKit.textBlocks Sample.page))) /\
  (let env :=
     Sample.ios 200 100
       (inr (Some [Sample.observation [Sample.candidate "Hi" 1]])) in
   exists cgImage answer,
     recognized (JS.extractTextFromImageWithDetails
                   (IOS.ExpoTextExtractorModule env) "file:///photo.jpg")
     = [cgImage] /\
     IOS.perform env cgImage = inr answer /\
     Forall2
       (fun observation entry =>
          scaledAndFlipped
            (Vision.CGFloat (IOS.CGImage_width env cgImage))
            (Vision.CGFloat (IOS.CGImage_height env cgImage))
            (Vision.boundingBox observation) (IOS.boundingBox entry))
       (filter hasCandidate (observed answer))
       [{| IOS.text := "Hi"; IOS.confidence := 1;
           IOS.boundingBox :=
             {| IOS.x := 50; IOS.y := 25;
                IOS.width := 100; IOS.height := 50 |} |}]).
Proof.
  split.
  - apply (proj1 C1_detailed_boxes_in_pixel_space
                 (Sample.android (inr Sample.page)) "AAAA").
    + right; left; reflexivity.
    + reflexivity.
  - apply (proj2 C1_detailed_boxes_in_pixel_space
                 (Sample.ios 200 100
                    (inr (Some [Sample.observation [Sample.candidate "Hi" 1]])))
                 "file:///photo.jpg").
    + left; reflexivity.
    + vm_compute. reflexivity.
Defined.

(** ** The coordinate normalizer *)

(** C2, as stated, fails: the Y coordinate of the result is 25, not 0. *)
Lemma C2_counterexample :
  IOS.normalizedToPixel
    {| CGRect.origin_x := 0.25; CGRect.origin_y := 0.25;
       CGRect.width := 0.5; CGRect.height := 0.5 |}
    {| CGSize.width := Vision.CGFloat 200; CGSize.height := Vision.CGFloat 100 |}
  <> {| IOS.x := 50; IOS.y := 0; IOS.width := 100; IOS.height := 50 |}.
Proof.
  intros H.
  apply (f_equal (fun box => PrimFloat.eqb (IOS.y box) 0)) in H.
  vm_compute in H. discriminate H.
Qed.

(** C2, amended: for the normalized rect [{x: 0.25, y: 0.25, width: 0.5,
    height: 0.5}] on an image of size [{width: 200, height: 100}] the
    normalizer yields the pixel rect [{x: 50, y: 25, width: 100,
    height: 50}]. *)
Theorem C2_normalizer_on_the_synthetic_rect :
  IOS.normalizedToPixel
    {| CGRect.origin_x := 0.25; CGRect.origin_y := 0.25;
       CGRect.width := 0.5; CGRect.height := 0.5 |}
    {| CGSize.width := Vision.CGFloat 200; CGSize.height := Vision.CGFloat 100 |}
  = {| IOS.x := 50; IOS.y := 25; IOS.width := 100; IOS.height := 50 |}.
Proof. vm_compute. reflexivity. Qed.

(** ** Failures *)

Section Failures.

Lemma catch_failsFast (env : Android.Env) (A : Type) error :
  failsFast Android.code "UNKNOWN_ERROR" (@Android.catch env A error).
Proof. split; [reflexivity|]. eexists. split; reflexivity. Qed.

(** A path that names no existing file and is no content URI. *)
Lemma android_missing_file (env : Android.Env) (uriString : string) :
  prefix "content://" uriString = false ->
  Android.File_exists env uriString = false ->
  failsFast Android.code "UNKNOWN_ERROR"
            (Android.extractTextFromImage env uriString) /\
  failsFast Android.code "UNKNOWN_ERROR"
            (Android.extractTextFromImageWithDetails env uriString).
Proof.
  intros Hc Hf.
  unfold Android.extractTextFromImage, Android.extractTextFromImageWithDetails.
  destruct (Android.reactContext env); cbv zeta;
    rewrite ?Hc, ?Hf; simpl; split; apply catch_failsFast.
Qed.

(** An existing file that ML Kit cannot load. *)
Lemma android_corrupt_file (env : Android.Env) (uriString : string)
    context error :
  Android.reactContext env = Some context ->
  prefix "content://" uriString = false ->
  Android.File_exists env uriString = true ->
  Android.InputImage_fromFilePath env context (Android.Uri_fromFile uriString)
  = inl error ->
  failsFast Android.code "UNKNOWN_ERROR"
            (Android.extractTextFromImage env uriString) /\
  failsFast Android.code "UNKNOWN_ERROR"
            (Android.extractTextFromImageWithDetails env uriString).
Proof.
  intros Hctx Hc Hf Hload.
  unfold Android.extractTextFromImage, Android.extractTextFromImageWithDetails.
  rewrite Hctx. cbv zeta. rewrite Hc, Hf. simpl. rewrite Hload.
  split; apply catch_failsFast.
Qed.

Lemma android_undecodable_base64 (env : Android.Env) base64Data error :
  Android.Base64_decode env base64Data = inl error ->
  failsFast Android.code "UNKNOWN_ERROR"
            (Android.extractTextFromImageData env base64Data) /\
  failsFast Android.code "UNKNOWN_ERROR"
            (Android.extractTextFromImageDataWithDetails env base64Data).
Proof.
  intros H.
  unfold Android.extractTextFromImageData,
    Android.extractTextFromImageDataWithDetails.
  rewrite H. split; apply catch_failsFast.
Qed.

Lemma android_undecodable_image (env : Android.Env) base64Data imageBytes :
  Android.Base64_decode env base64Data = inr imageBytes ->
  Android.BitmapFactory_decodeByteArray env imageBytes = None ->
  failsFast Android.code "INVALID_IMAGE"
            (Android.extractTextFromImageData env base64Data) /\
  failsFast Android.code "INVALID_IMAGE"
            (Android.extractTextFromImageDataWithDetails env base64Data).
Proof.
  intros H1 H2.
  unfold Android.extractTextFromImageData,
    Android.extractTextFromImageDataWithDetails.
  rewrite H1, H2.
  split; (split; [reflexivity|]); eexists; split; reflexivity.
Qed.

Lemma ios_unreadable_file (env : IOS.Env) url error :
  IOS.Data_contentsOf env url = inl error ->
  IOS.extractTextFromImage env url = IOS.reject env (IOS.Thrown error) /\
  IOS.extractTextFromImageWithDetails env url
  = IOS.reject env (IOS.Thrown error).
Proof.
  intros H.
  unfold IOS.extractTextFromImage, IOS.extractTextFromImageWithDetails.
  now rewrite H.
Qed.

Lemma ios_undecodable_base64 (env : IOS.Env) base64Data :
  IOS.Data_base64Encoded env base64Data = None ->
  failsFast IOS.name "INVALID_BASE64"
            (IOS.extractTextFromImageData env base64Data) /\
  failsFast IOS.name "INVALID_BASE64"
            (IOS.extractTextFromImageDataWithDetails env base64Data).
Proof.
  intros H.
  unfold IOS.extractTextFromImageData,
    IOS.extractTextFromImageDataWithDetails.
  rewrite H.
  split; (split; [reflexivity|]); eexists; split; reflexivity.
Qed.

Lemma ios_undecodable_image (env : IOS.Env) base64Data imageData :
  IOS.Data_base64Encoded env base64Data = Some imageData ->
  IOS.image_cgImage env (IOS.UIImage_data env imageData) = None ->
  failsFast IOS.name "INVALID_IMAGE"
            (IOS.extractTextFromImageData env base64Data) /\
  failsFast IOS.name "INVALID_IMAGE"
            (IOS.extractTextFromImageDataWithDetails env base64Data).
Proof.
  intros H1 H2.
  unfold IOS.extractTextFromImageData,
    IOS.extractTextFromImageDataWithDetails.
  rewrite H1. cbv zeta. rewrite H2.
  split; (split; [reflexivity|]); eexists; split; reflexivity.
Qed.

Lemma ios_corrupt_file (env : IOS.Env) url imageData :
  IOS.Data_contentsOf env url = inr imageData ->
  IOS.image_cgImage env (IOS.UIImage_data env imageData) = None ->
  failsFast IOS.name "INVALID_IMAGE"
            (IOS.extractTextFromImageWithDetails env url).
Proof.
  intros H1 H2. unfold IOS.extractTextFromImageWithDetails.
  rewrite H1. cbv zeta. rewrite H2.
  split; [reflexivity|]. eexists; split; reflexivity.
Qed.

(** *** Every way a call ends *)

(** No valid image: the cases of the Kotlin file functions. *)
Ltac no_valid_image :=
  let inputImage := fresh "inputImage" in
  let c := fresh "context" in
  intros inputImage (c & ? & [[? ?]|(? & ? & ?)]); congruence.

Lemma android_plain_file_outcome (env : Android.Env) (uriString : string) :
  androidFileOutcome env uriString (fun _ _ => True)
                     (Android.extractTextFromImage env uriString).
Proof.
  unfold androidFileOutcome, Android.extractTextFromImage.
  destruct (Android.reactContext env) as [context|] eqn:Hctx.
  2: { left. split; [no_valid_image|].
       split; [reflexivity|]. eexists. split; reflexivity. }
  cbv zeta.
  destruct (prefix "content://" uriString) eqn:Hc;
    [|destruct (Android.File_exists env uriString) eqn:Hf; simpl negb; cbv iota].
  3: { left. split; [no_valid_image|].
       split; [reflexivity|]. eexists. split; reflexivity. }
  all: destruct (Android.InputImage_fromFilePath env context _)
    as [error|inputImage] eqn:Hload.
  all: try (left; split; [no_valid_image|];
            split; [reflexivity|]; eexists; split; reflexivity).
  all: assert (Hvalid : androidValidImage env uriString inputImage)
    by (exists context; split; [assumption|]; auto).
  all: unfold Android.recognize, rejectedIn, resolvedIn; simpl;
    destruct (Android.process env inputImage) as [error|visionText] eqn:Hp;
    [right; left; exists inputImage, error
    |right; right; exists inputImage, visionText];
    repeat split; eauto.
Qed.

Lemma android_detailed_file_outcome (env : Android.Env) (uriString : string) :
  androidFileOutcome env uriString
    (fun error =>
       carries "TEXT_RECOGNITION_ERROR"
               (Android.elvis (Android.message error) "Text recognition failed"))
    (Android.extractTextFromImageWithDetails env uriString).
Proof.
  unfold androidFileOutcome, Android.extractTextFromImageWithDetails.
  destruct (Android.reactContext env) as [context|] eqn:Hctx.
  2: { left. split; [no_valid_image|].
       split; [reflexivity|]. eexists. split; reflexivity. }
  cbv zeta.
  destruct (prefix "content://" uriString) eqn:Hc;
    [|destruct (Android.File_exists env uriString) eqn:Hf; simpl negb; cbv iota].
  3: { left. split; [no_valid_image|].
       split; [reflexivity|]. eexists. split; reflexivity. }
  all: destruct (Android.InputImage_fromFilePath env context _)
    as [error|inputImage] eqn:Hload.
  all: try (left; split; [no_valid_image|];
            split; [reflexivity|]; eexists; split; reflexivity).
  all: assert (Hvalid : androidValidImage env uriString inputImage)
    by (exists context; split; [assumption|]; auto).
  all: unfold Android.recognize, rejectedIn, resolvedIn, carries; simpl;
    destruct (Android.process env inputImage) as [error|visionText] eqn:Hp;
    [right; left; exists inputImage, error
    |right; right; exists inputImage, visionText];
    repeat split; eauto.
Qed.






(** Nothing to recognize: the file calls of both modules reject. *)
Lemma android_no_valid_image (env : Android.Env) (uriString : string) :
  (forall inputImage, ~ androidValidImage env uriString inputImage) ->
  failsFast Android.code "UNKNOWN_ERROR"
            (Android.extractTextFromImage env uriString) /\
  failsFast Android.code "UNKNOWN_ERROR"
            (Android.extractTextFromImageWithDetails env uriString).
Proof.
  intros Hnone. split.
  - destruct (android_plain_file_outcome env uriString) as [[_ H]|[H|H]].
    + exact H.
    + destruct H as (inputImage & error & Hv & _). destruct (Hnone _ Hv).
    + destruct H as (inputImage & visionText & Hv & _). destruct (Hnone _ Hv).
  - destruct (android_detailed_file_outcome env uriString) as [[_ H]|[H|H]].
    + exact H.
    + destruct H as (inputImage & error & Hv & _). destruct (Hnone _ Hv).
    + destruct H as (inputImage & visionText & Hv & _). destruct (Hnone _ Hv).
Qed.

Lemma ios_no_valid_image (env : IOS.Env) (url : string) :
  (forall cgImage, ~ iosValidImage env url cgImage) ->
  rejectedBefore (fun _ => True) (IOS.extractTextFromImage env url) /\
  rejectedBefore (fun _ => True) (IOS.extractTextFromImageWithDetails env url).
Proof.
  intros Hnone.
  unfold IOS.extractTextFromImage, IOS.extractTextFromImageWithDetails.
  destruct (IOS.Data_contentsOf env url) as [error|imageData] eqn:Hdata.
  - split; (split; [reflexivity|]); eexists;
      (split; [reflexivity|exact I]).
  - cbv zeta.
    destruct (IOS.image_cgImage env (IOS.UIImage_data env imageData))
      as [cgImage|] eqn:Himage.
    + destruct (Hnone cgImage). now exists imageData.
    + split; (split; [reflexivity|]); eexists;
      (split; [reflexivity|exact I]).
Qed.


End Failures.

(** C3, as stated, fails: a path that names no file is rejected before the
    recognizer is invoked, but with [UNKNOWN_ERROR], not [INVALID_IMAGE]. *)
Lemma C3_counterexample :
  let run :=
    JS.extractTextFromImage
      (Android.ExpoTextExtractorModule (Sample.android (inr Sample.page)))
      "file:///missing.jpg" in
  failsFast Android.code "UNKNOWN_ERROR" run /\
  ~ failsFast Android.code "INVALID_IMAGE" run.
Proof.
  split.
  - split; [reflexivity|]. eexists. split; reflexivity.
  - intros [_ (e & He & Hcode)]. vm_compute in He.
    injection He as <-. discriminate Hcode.
Qed.

(** C3, amended: an input naming a missing or corrupt file or carrying
    an undecodable payload is rejected before any recognition call is
    attempted, the recognizer never being invoked for it.  On Android the
    kind is [UNKNOWN_ERROR] for every path or content URI that gives no
    image to recognize (a missing file, a file or a content URI that ML
    Kit cannot load) and for an undecodable base64 string, and
    [INVALID_IMAGE] for payload bytes that are no image.  On iOS the kind
    is [INVALID_BASE64] for an undecodable base64 string and
    [INVALID_IMAGE] for data that is no image (both data calls, and the
    detailed file call); the plain file call rejects a file that is no
    image before recognition too, and an unreadable file rejects with the
    error thrown by the read itself. *)
Theorem C3_invalid_input_fails_before_recognition :
  (forall (env : Android.Env) (uri : string),
      let M := Android.ExpoTextExtractorModule env in
      let processedUri := JS.replace uri "file://" "" in
      prefix "content://" processedUri = false ->
      Android.File_exists env processedUri = false ->
      failsFast Android.code "UNKNOWN_ERROR" (JS.extractTextFromImage M uri) /\
      failsFast Android.code "UNKNOWN_ERROR"
                (JS.extractTextFromImageWithDetails M uri)) /\
  (forall (env : Android.Env) (uri : string) context error,
      let M := Android.ExpoTextExtractorModule env in
      let processedUri := JS.replace uri "file://" "" in
      Android.reactContext env = Some context ->
      prefix "content://" processedUri = false ->
      Android.File_exists env processedUri = true ->
      Android.InputImage_fromFilePath env context
        (Android.Uri_fromFile processedUri) = inl error ->
      failsFast Android.code "UNKNOWN_ERROR" (JS.extractTextFromImage M uri) /\
      failsFast Android.code "UNKNOWN_ERROR"
                (JS.extractTextFromImageWithDetails M uri)) /\
  (forall (env : Android.Env) (uri : string) context error,
      let M := Android.ExpoTextExtractorModule env in
      let processedUri := JS.replace uri "file://" "" in
      Android.reactContext env = Some context ->
      prefix "content://" processedUri = true ->
      Android.InputImage_fromFilePath env context
        (Android.Uri_parse processedUri) = inl error ->
      failsFast Android.code "UNKNOWN_ERROR" (JS.extractTextFromImage M uri) /\
      failsFast Android.code "UNKNOWN_ERROR"
                (JS.extractTextFromImageWithDetails M uri)) /\
  (forall (env : Android.Env) (uri : string),
      let M := Android.ExpoTextExtractorModule env in
      let processedUri := JS.replace uri "file://" "" in
      (forall inputImage, ~ androidValidImage env processedUri inputImage) ->
      failsFast Android.code "UNKNOWN_ERROR" (JS.extractTextFromImage M uri) /\
      failsFast Android.code "UNKNOWN_ERROR"
                (JS.extractTextFromImageWithDetails M uri)) /\
  (forall (env : Android.Env) (base64Data : string),
      let M := Android.ExpoTextExtractorModule env in
      (forall error,
          Android.Base64_decode env base64Data = inl error ->
          failsFast Android.code "UNKNOWN_ERROR"
                    (JS.extractTextFromImageData M base64Data) /\
          failsFast Android.code "UNKNOWN_ERROR"
                    (JS.extractTextFromImageDataWithDetails M base64Data)) /\
      (forall imageBytes,
          Android.Base64_decode env base64Data = inr imageBytes ->
          Android.BitmapFactory_decodeByteArray env imageBytes = None ->
          failsFast Android.code "INVALID_IMAGE"
                    (JS.extractTextFromImageData M base64Data) /\
          failsFast Android.code "INVALID_IMAGE"
                    (JS.extractTextFromImageDataWithDetails M base64Data))) /\
  (forall (env : IOS.Env) (uri : string),
      let M := IOS.ExpoTextExtractorModule env in
      let url := JS.replace uri "file://" "" in
      (forall error,
          IOS.Data_contentsOf env url = inl error ->
          JS.extractTextFromImage M uri = mkRun [] (Rejected (IOS.Thrown error)) /\
          JS.extractTextFromImageWithDetails M uri
          = mkRun [] (Rejected (IOS.Thrown error))) /\
      (forall imageData,
          IOS.Data_contentsOf env url = inr imageData ->
          IOS.image_cgImage env (IOS.UIImage_data env imageData) = None ->
          rejectedBefore (fun _ => True) (JS.extractTextFromImage M uri) /\
          failsFast IOS.name "INVALID_IMAGE"
                    (JS.extractTextFromImageWithDetails M uri)) /\
      ((forall cgImage, ~ iosValidImage env url cgImage) ->
       rejectedBefore (fun _ => True) (JS.extractTextFromImage M uri) /\
       rejectedBefore (fun _ => True)
                      (JS.extractTextFromImageWithDetails M uri))) /\
  (forall (env : IOS.Env) (base64Data : string),
      let M := IOS.ExpoTextExtractorModule env in
      (IOS.Data_base64Encoded env base64Data = None ->
       failsFast IOS.name "INVALID_BASE64"
                 (JS.extractTextFromImageData M base64Data) /\
       failsFast IOS.name "INVALID_BASE64"
                 (JS.extractTextFromImageDataWithDetails M base64Data)) /\
      (forall imageData,
          IOS.Data_base64Encoded env base64Data = Some imageData ->
          IOS.image_cgImage env (IOS.UIImage_data env imageData) = None ->
          failsFast IOS.name "INVALID_IMAGE"
                    (JS.extractTextFromImageData M base64Data) /\
          failsFast IOS.name "INVALID_IMAGE"
                    (JS.extractTextFromImageDataWithDetails M base64Data))).
Proof.
  split; [|split; [|split; [|split; [|split; [|split]]]]].
  - intros env uri. cbv zeta. apply android_missing_file.
  - intros env uri context error. cbv zeta. apply android_corrupt_file.
  - intros env uri context error. cbv zeta.
    intros Hctx Hc Hload. apply android_no_valid_image.
    intros inputImage (c & ? & [[? ?]|(? & ? & ?)]); congruence.
  - intros env uri. cbv zeta. apply android_no_valid_image.
  - intros env base64Data. cbv zeta. split.
    + intros error. apply android_undecodable_base64.
    + intros imageBytes. apply android_undecodable_image.
  - intros env uri. cbv zeta. split; [|split].
    + intros error. apply ios_unreadable_file.
    + intros imageData Hdata Himage. split.
      * apply ios_no_valid_image.
        intros cgImage (d & ? & ?). congruence.
      * now apply (ios_corrupt_file env _ imageData).
    + apply ios_no_valid_image.
  - intros env base64Data. cbv zeta. split.
    + apply ios_undecodable_base64.
    + intros imageData. apply ios_undecodable_image.
Qed.

Lemma C3_witness :
  (let M := Android.ExpoTextExtractorModule (Sample.android (inr Sample.page)) in
   failsFast Android.code "UNKNOWN_ERROR"
             (JS.extractTextFromImage M "file:///missing.jpg") /\
   failsFast Android.code "UNKNOWN_ERROR"
             (JS.extractTextFromImageWithDetails M "file:///missing.jpg")) /\
  (let M := IOS.ExpoTextExtractorModule (Sample.ios 200 100 (inr None)) in
   failsFast IOS.name "INVALID_BASE64" (JS.extractTextFromImageData M "!!!") /\
   failsFast IOS.name "INVALID_BASE64"
             (JS.extractTextFromImageDataWithDetails M "!!!")) /\
  (let M := IOS.ExpoTextExtractorModule (Sample.ios 200 100 (inr None)) in
   rejectedBefore (fun _ => True) (JS.extractTextFromImage M "/missing.jpg") /\
   rejectedBefore (fun _ => True)
                  (JS.extractTextFromImageWithDetails M "/missing.jpg")).
Proof.
  split; [|split].
  - apply (proj1 C3_invalid_input_fails_before_recognition
                 (Sample.android (inr Sample.page)) "file:///missing.jpg");
      reflexivity.
  - apply (proj1 (proj2 (proj2 (proj2 (proj2 (proj2 (proj2
                    C3_invalid_input_fails_before_recognition)))))
                    (Sample.ios 200 100 (inr None)) "!!!")).
    reflexivity.
  - apply (proj2 (proj2 (proj1 (proj2 (proj2 (proj2 (proj2 (proj2
                    C3_invalid_input_fails_before_recognition)))))
                    (Sample.ios 200 100 (inr None)) "/missing.jpg"))).
    intros cgImage (imageData & Hdata & _). discriminate Hdata.
Defined.




(** ** The confidence threshold *)

Set Warnings "-inexact-float".

(** C5: [minConfidence] is applied as a post-filter over the result: every
    entity whose confidence is below the threshold is dropped, every
    entity at or above it is retained, and the retained entities keep
    their original order; [minConfidence = 0.9] on confidences 0.95, 0.5
    and 0.99 retains exactly the 0.95 and the 0.99 entities, in that
    order. *)
Theorem C5_minConfidence_is_a_post_filter :
  (forall (E : Type) (confidence : E -> float) (minConfidence : float)
          (entities : list E),
      let retained :=
        Unified.applyMinConfidence confidence minConfidence entities in
      (forall entity,
          In entity entities ->
          (confidence entity <? minConfidence)%float = true ->
          ~ In entity retained) /\
      (forall entity,
          In entity entities ->
          (minConfidence <=? confidence entity)%float = true ->
          In entity retained) /\
      Subsequence retained entities) /\
  Unified.applyMinConfidence Unified.confidence 0.9%float
    [Sample.entity "a" 0.95; Sample.entity "b" 0.5; Sample.entity "c" 0.99]
  = [Sample.entity "a" 0.95; Sample.entity "c" 0.99].
Proof.
  split; [|vm_compute; reflexivity].
  intros E confidence minConfidence entities retained.
  unfold retained, Unified.applyMinConfidence. repeat split.
  - intros entity _ Hbelow Hin. apply filter_In in Hin.
    destruct Hin as [_ Hkept]. rewrite Hbelow in Hkept. discriminate Hkept.
  - intros entity Hin Hatleast. apply filter_In. split; [assumption|].
    now rewrite (atleast_not_below _ _ Hatleast).
  - apply filter_Subsequence.
Qed.

Lemma C5_witness :
  let entities :=
    [Sample.entity "a" 0.95; Sample.entity "b" 0.5; Sample.entity "c" 0.99] in
  ~ In (Sample.entity "b" 0.5)
       (Unified.applyMinConfidence Unified.confidence 0.9%float entities) /\
  In (Sample.entity "c" 0.99)
     (Unified.applyMinConfidence Unified.confidence 0.9%float entities).
Proof.
  pose proof (proj1 C5_minConfidence_is_a_post_filter
                Unified.LegacyRecognizedText Unified.confidence 0.9%float
                [Sample.entity "a" 0.95; Sample.entity "b" 0.5;
                 Sample.entity "c" 0.99]) as [Hdrop [Hkeep _]].
  split.
  - apply Hdrop; [right; left; reflexivity | vm_compute; reflexivity].
  - apply Hkeep; [right; right; left; reflexivity | vm_compute; reflexivity].
Defined.

Set Warnings "+inexact-float".

(** ** The Android fallbacks *)

(** C6: on the Android detailed paths the confidence returned for a text
    block whose native confidence is absent is exactly 0.5, and a native
    confidence that is present is returned unchanged. *)
Theorem C6_android_confidence_fallback :
  forall (env : Android.Env) (input : string) run results,
    In run (detailedCalls (Android.ExpoTextExtractorModule env) input) ->
    settled run = Resolved results ->
    exists inputImage visionText,
      recognized run = [inputImage] /\
      Android.process env inputImage = inr visionText /\
      Forall2
        (fun textBlock entry =>
           (MLKit.confidence textBlock = None ->
            Android.confidence entry = 0.5%float) /\
           (forall c, MLKit.confidence textBlock = Some c ->
                      Android.confidence entry = c))
        (MLKit.textBlocks visionText) results.
Proof.
  intros env input run results Hin Hres.
  destruct (AndroidRun_resolved env _ _ run results
              (android_detailed_run env input run Hin) Hres)
    as (inputImage & visionText & Hrec & Hproc & ->).
  exists inputImage, visionText. repeat split; auto.
  apply map_Forall2. intros textBlock.
  unfold Android.details; simpl.
  split; [intros ->; reflexivity | intros c ->; reflexivity].
Qed.

Lemma C6_witness :
  let env := Sample.android (inr Sample.page) in
  exists inputImage visionText,
    recognized (JS.extractTextFromImageWithDetails
                  (Android.ExpoTextExtractorModule env) "file:///photo.jpg")
    = [inputImage] /\
    Android.process env inputImage = inr visionText /\
    Forall2
      (fun textBlock entry =>
         (MLKit.confidence textBlock = None ->
          Android.confidence entry = 0.5%float) /\
         (forall c, MLKit.confidence textBlock = Some c ->
                    Android.confidence entry = c))
      (MLKit.textBlocks visionText)
      [{| Android.text := "Hello"; Android.confidence := 0.75;
          Android.boundingBox := passedThrough Sample.rect |};
       {| Android.text := "World"; Android.confidence := 0.5;
          Android.boundingBox := nullBox |}].
Proof.
  apply (C6_android_confidence_fallback (Sample.android (inr Sample.page))
           "file:///photo.jpg").
  - left; reflexivity.
  - vm_compute. reflexivity.
Defined.



(** ** The plain results *)

Section ValidImages.

Lemma android_valid_image_run (env : Android.Env) uriString inputImage :
  androidValidImage env uriString inputImage ->
  Android.extractTextFromImage env uriString
  = Android.recognize env inputImage
      (fun visionText => map MLKit.text (MLKit.textBlocks visionText))
      (fun error => Android.CodedException_message_cause "err" error).
Proof.
  intros (context & Hctx & [[Hc Hload]|(Hc & Hf & Hload)]);
    unfold Android.extractTextFromImage; rewrite Hctx; cbv zeta;
    rewrite Hc, ?Hf; simpl; now rewrite Hload.
Qed.

Lemma ios_valid_image_run (env : IOS.Env) url cgImage :
  iosValidImage env url cgImage ->
  IOS.extractTextFromImage env url
  = IOS.recognize env cgImage IOS.recognizedTexts.
Proof.
  intros (imageData & Hdata & Himage).
  unfold IOS.extractTextFromImage. rewrite Hdata. cbv zeta.
  now rewrite Himage.
Qed.

End ValidImages.

(** C7, as stated, fails on iOS: an observation without a candidate is a
    detected region for which no entry is returned. *)
Lemma C7_counterexample :
  let observations :=
    [Sample.observation []; Sample.observation [Sample.candidate "Hi" 1]] in
  let env := Sample.ios 200 100 (inr (Some observations)) in
  let run :=
    JS.extractTextFromImage (IOS.ExpoTextExtractorModule env)
                            "file:///photo.jpg" in
  recognized run = [(200, 100)%Z] /\
  IOS.perform env (200, 100)%Z = inr (Some observations) /\
  settled run = Resolved ["Hi"] /\
  List.length ["Hi"] <> List.length observations.
Proof. repeat split. discriminate. Qed.

(** C7, amended: for every valid image on which the SDK answers,
    [extractTextFromImage(uri)] resolves with one entry per detected region
    that has a recognized text, in the SDK's return order, each entry
    being the SDK's text for its region (so empty only when that text is):
    on Android one entry per text block; on iOS one entry per observation
    with a top candidate, observations without one being skipped. *)
Theorem C7_one_entry_per_recognized_region :
  (forall (env : Android.Env) (uri : string) inputImage visionText,
      androidValidImage env (JS.replace uri "file://" "") inputImage ->
      Android.process env inputImage = inr visionText ->
      exists results,
        settled (JS.extractTextFromImage
                   (Android.ExpoTextExtractorModule env) uri)
        = Resolved results /\
        List.length results = List.length (MLKit.textBlocks visionText) /\
        Forall2 (fun textBlock entry => entry = MLKit.text textBlock)
                (MLKit.textBlocks visionText) results) /\
  (forall (env : IOS.Env) (uri : string) cgImage observations,
      iosValidImage env (JS.replace uri "file://" "") cgImage ->
      IOS.perform env cgImage = inr (Some observations) ->
      exists results,
        settled (JS.extractTextFromImage (IOS.ExpoTextExtractorModule env) uri)
        = Resolved results /\
        List.length results
        = List.length (filter hasCandidate observations) /\
        Forall2
          (fun observation entry =>
             exists topCandidate,
               hd_error (Vision.topCandidates 1 observation)
               = Some topCandidate /\
               entry = Vision.string_ topCandidate)
          (filter hasCandidate observations) results).
Proof.
  split.
  - intros env uri inputImage visionText Hvalid Hproc.
    exists (map MLKit.text (MLKit.textBlocks visionText)). split; [|split].
    + unfold JS.extractTextFromImage. cbv zeta. simpl.
      rewrite (android_valid_image_run env _ inputImage Hvalid).
      unfold Android.recognize. simpl. now rewrite Hproc.
    + apply length_map.
    + apply map_Forall2. reflexivity.
  - intros env uri cgImage observations Hvalid Hperf.
    exists (IOS.recognizedTexts observations). split; [|split].
    + unfold JS.extractTextFromImage. cbv zeta. simpl.
      rewrite (ios_valid_image_run env _ cgImage Hvalid).
      unfold IOS.recognize. simpl. now rewrite Hperf.
    + unfold IOS.recognizedTexts. rewrite compactMap_length.
      f_equal. apply filter_ext. apply recognizedTexts_hasCandidate.
    + unfold IOS.recognizedTexts.
      rewrite (filter_ext _ _ (fun o => eq_sym (recognizedTexts_hasCandidate o))).
      apply compactMap_Forall2. intros observation entry.
      destruct (hd_error (Vision.topCandidates 1 observation))
        as [topCandidate|]; [|discriminate].
      intros [= <-]. now exists topCandidate.
Qed.

Lemma C7_witness :
  (let env := Sample.android (inr Sample.page) in
   exists results,
     settled (JS.extractTextFromImage (Android.ExpoTextExtractorModule env)
                                      "file:///photo.jpg")
     = Resolved results /\
     List.length results = List.length (MLKit.textBlocks Sample.page) /\
     Forall2 (fun textBlock entry => entry = MLKit.text textBlock)
             (MLKit.textBlocks Sample.page) results) /\
  (let observations :=
     [Sample.observation []; Sample.observation [Sample.candidate "Hi" 1]] in
   let env := Sample.ios 200 100 (inr (Some observations)) in
   exists results,
     settled (JS.extractTextFromImage (IOS.ExpoTextExtractorModule env)
                                      "file:///photo.jpg")
     = Resolved results /\
     List.length results = List.length (filter hasCandidate observations) /\
     Forall2
       (fun observation entry =>
          exists topCandidate,
            hd_error (Vision.topCandidates 1 observation) = Some topCandidate /\
            entry = Vision.string_ topCandidate)
       (filter hasCandidate observations) results).
Proof.
  split.
  - apply (proj1 C7_one_entry_per_recognized_region
                 (Sample.android (inr Sample.page)) "file:///photo.jpg"
                 "/photo.jpg"); [|reflexivity].
    exists tt. split; [reflexivity|]. right. repeat split.
  - apply (proj2 C7_one_entry_per_recognized_region
                 (Sample.ios 200 100
                    (inr (Some [Sample.observation [];
                                Sample.observation [Sample.candidate "Hi" 1]])))
                 "file:///photo.jpg" (200, 100)%Z); [|reflexivity].
    exists [x00; x00; x00]. split; reflexivity.
Defined.

(** * Further properties of the code *)

(** ** The processed uri *)

Section ProcessedUri.

(** A successful search finds the leftmost occurrence. *)
Lemma indexOf_Some (pat : string) :
  forall s n,
    JS.indexOf pat s = Some n ->
    exists pre post,
      s = pre ++ pat ++ post /\ String.length pre = n /\
      firstOccurrence pat pre s.
Proof.
  induction s as [|c s IH]; intros n; cbn [JS.indexOf].
  - destruct (prefix pat "") eqn:Hp; [|discriminate].
    intros [= <-]. apply prefix_occurs in Hp. destruct Hp as [post Hs].
    exists "", post. repeat split; auto.
    + now exists post.
    + intros pre' _. simpl. lia.
  - destruct (prefix pat (String c s)) eqn:Hp.
    + intros [= <-]. apply prefix_occurs in Hp. destruct Hp as [post Hs].
      exists "", post. repeat split; auto.
      * now exists post.
      * intros pre' _. simpl. lia.
    + destruct (JS.indexOf pat s) as [m|] eqn:E; [|discriminate].
      intros [= <-].
      destruct (IH m eq_refl) as (pre & post & Hs & Hlen & [_ Hmin]).
      exists (String c pre), post. repeat split.
      * simpl. now rewrite <- Hs.
      * simpl. now rewrite Hlen.
      * exists post. simpl. now rewrite <- Hs.
      * intros pre' [post' H']. destruct pre' as [|d pre'].
        -- assert (prefix pat (String c s) = true)
             by (apply prefix_occurs; now exists post').
           congruence.
        -- simpl. apply le_n_S, Hmin. exists post'.
           simpl in H'. now injection H'.
Qed.

Lemma here_is_first (pat post : string) :
  firstOccurrence pat "" (pat ++ post).
Proof. split; [now exists post | intros pre' _; simpl; lia]. Qed.

End ProcessedUri.

(** X1: a uri that begins with ["file://"] reaches the native module as the
    path that follows the scheme, whatever that path contains. *)
Theorem X1_leading_file_scheme_is_stripped :
  forall (P Q : Type) (M : JS.NativeModule P Q) (path : string),
    JS.extractTextFromImage M ("file://" ++ path)
    = JS.native_extractTextFromImage M path /\
    JS.extractTextFromImageWithDetails M ("file://" ++ path)
    = JS.native_extractTextFromImageWithDetails M path.
Proof.
  intros P Q M path.
  unfold JS.extractTextFromImage, JS.extractTextFromImageWithDetails.
  cbv zeta.
  pose proof (replace_first "file://" "" "" path (here_is_first "file://" path))
    as H.
  cbn [append] in H |- *. rewrite H. split; reflexivity.
Qed.

(** X2: for every uri the string handed to the native module is the uri
    itself when it has no ["file://"], and otherwise the uri with the seven
    characters of its leftmost ["file://"] cut out, so exactly seven
    characters shorter. *)
Theorem X2_processed_uri_cases :
  forall (P Q : Type) (M : JS.NativeModule P Q) (uri : string),
    exists processedUri,
      JS.extractTextFromImage M uri
      = JS.native_extractTextFromImage M processedUri /\
      JS.extractTextFromImageWithDetails M uri
      = JS.native_extractTextFromImageWithDetails M processedUri /\
      ((absent "file://" uri /\ processedUri = uri) \/
       (exists pre post,
           uri = pre ++ "file://" ++ post /\
           firstOccurrence "file://" pre uri /\
           processedUri = pre ++ post /\
           String.length uri = String.length processedUri + 7)).
Proof.
  intros P Q M uri. exists (JS.replace uri "file://" "").
  split; [reflexivity|]. split; [reflexivity|].
  destruct (JS.indexOf "file://" uri) as [n|] eqn:E.
  - right. destruct (indexOf_Some _ _ _ E) as (pre & post & Hs & _ & Hf).
    exists pre, post. split; [assumption|]. split; [assumption|].
    subst uri. rewrite (replace_first "file://" "" pre post Hf). simpl.
    split; [reflexivity|]. rewrite !length_append. simpl. lia.
  - left. pose proof (indexOf_None_absent _ _ E) as Ha.
    split; [assumption|]. now apply replace_absent.
Qed.

(** ** One recognition per call *)

Section OneRecognition.

Lemma AndroidRun_once (env : Android.Env) (A : Type)
    (onSuccess : MLKit.Text -> A) onFailure (run : Android.Promise env A) :
  AndroidRun env onSuccess onFailure run ->
  List.length (recognized run) <= 1 /\
  (forall value, settled run = Resolved value ->
                 List.length (recognized run) = 1).
Proof.
  intros [error| |inputImage]; simpl; split; auto; discriminate.
Qed.

Lemma IOSRun_once (env : IOS.Env) (A : Type) completion
    (run : IOS.Promise env (list A)) :
  IOSRun env completion run ->
  List.length (recognized run) <= 1 /\
  (forall value, settled run = Resolved value ->
                 List.length (recognized run) = 1).
Proof.
  intros [error|cgImage]; simpl; split; auto; discriminate.
Qed.

End OneRecognition.

(** X3: every call of either native module hands at most one image to
    the recognizer (there is no retry), and a call that resolves has
    handed it exactly one. *)
Theorem X3_one_recognition_per_call :
  (forall (env : Android.Env) (input : string),
      let M := Android.ExpoTextExtractorModule env in
      recognizesOnce (JS.extractTextFromImage M input) /\
      recognizesOnce (JS.extractTextFromImageData M input) /\
      recognizesOnce (JS.extractTextFromImageWithDetails M input) /\
      recognizesOnce (JS.extractTextFromImageDataWithDetails M input)) /\
  (forall (env : IOS.Env) (input : string),
      let M := IOS.ExpoTextExtractorModule env in
      recognizesOnce (JS.extractTextFromImage M input) /\
      recognizesOnce (JS.extractTextFromImageData M input) /\
      recognizesOnce (JS.extractTextFromImageWithDetails M input) /\
      recognizesOnce (JS.extractTextFromImageDataWithDetails M input)).
Proof.
  split; intros env input M; (split; [|split; [|split]]).
  - eapply AndroidRun_once, extractTextFromImage_run.
  - eapply AndroidRun_once, extractTextFromImageData_run.
  - eapply AndroidRun_once, extractTextFromImageWithDetails_run.
  - eapply AndroidRun_once, extractTextFromImageDataWithDetails_run.
  - eapply IOSRun_once, ios_extractTextFromImage_run.
  - eapply IOSRun_once, ios_extractTextFromImageData_run.
  - eapply IOSRun_once, ios_extractTextFromImageWithDetails_run.
  - eapply IOSRun_once, ios_extractTextFromImageDataWithDetails_run.
Qed.

(** ** Plain and detailed results of one input *)

Section PlainAndDetailed.

Lemma details_text (blocks : list MLKit.TextBlock) :
  map Android.text (map Android.details blocks) = map MLKit.text blocks.
Proof. rewrite map_map. apply map_ext. reflexivity. Qed.

Lemma ios_details_text (env : IOS.Env) (cgImage : IOS.CGImage env) observations :
  map IOS.text (compactMap (IOS.details env cgImage) observations)
  = IOS.recognizedTexts observations.
Proof.
  unfold IOS.recognizedTexts.
  induction observations as [|o l IH]; simpl; [reflexivity|].
  unfold IOS.details at 1.
  destruct (hd_error (Vision.topCandidates 1 o)); simpl; congruence.
Qed.

(** The plain run is the detailed run with every entry cut down to its
    text: the same images recognized, resolved together. *)
Lemma android_runs_agree (env : Android.Env) onFailure onFailure' inputImage :
  let plain :=
    Android.recognize env inputImage
      (fun visionText => map MLKit.text (MLKit.textBlocks visionText))
      onFailure in
  let detailed :=
    Android.recognize env inputImage
      (fun visionText => map Android.details (MLKit.textBlocks visionText))
      onFailure' in
  recognized plain = recognized detailed /\
  (forall results,
      settled detailed = Resolved results ->
      settled plain = Resolved (map Android.text results)) /\
  (forall texts,
      settled plain = Resolved texts ->
      exists results,
        settled detailed = Resolved results /\
        map Android.text results = texts).
Proof.
  cbv zeta. unfold Android.recognize. simpl.
  destruct (Android.process env inputImage) as [error|visionText].
  - repeat split; discriminate.
  - repeat split.
    + intros results [= <-]. now rewrite details_text.
    + intros texts [= <-]. eexists. split; [reflexivity|]. apply details_text.
Qed.

Lemma ios_runs_agree (env : IOS.Env) (cgImage : IOS.CGImage env) :
  let plain := IOS.recognize env cgImage IOS.recognizedTexts in
  let detailed :=
    IOS.recognize env cgImage (compactMap (IOS.details env cgImage)) in
  recognized plain = recognized detailed /\
  (forall results,
      settled detailed = Resolved results ->
      settled plain = Resolved (map IOS.text results)) /\
  (forall texts,
      settled plain = Resolved texts ->
      exists results,
        settled detailed = Resolved results /\
        map IOS.text results = texts).
Proof.
  cbv zeta. unfold IOS.recognize. simpl.
  destruct (IOS.perform env cgImage) as [error|[observations|]].
  - repeat split; discriminate.
  - repeat split.
    + intros results [= <-]. now rewrite ios_details_text.
    + intros texts [= <-]. eexists. split; [reflexivity|].
      apply ios_details_text.
  - repeat split.
    + intros results [= <-]. reflexivity.
    + intros texts [= <-]. now exists [].
Qed.

Lemma agree_rejected {I A B E : Type} (text : B -> A)
    (plain : Run I (list A) E) (detailed : Run I (list B) E) :
  (recognized plain = [] /\ recognized detailed = [] /\
   (exists e, settled plain = Rejected e) /\
   (exists e, settled detailed = Rejected e)) ->
  agree text plain detailed.
Proof.
  intros (Hp & Hd & [e He] & [e' He']). unfold agree.
  rewrite Hp, Hd, He, He'. repeat split; discriminate.
Qed.

End PlainAndDetailed.

(** X4: on Android the plain call is the detailed call with each entry
    cut down to its text.  For one input, [extractTextFromImage] and
    [extractTextFromImageWithDetails] (and likewise the two data calls)
    hand the same images to the recognizer and resolve together, the plain
    texts being the [text] members of the detailed entries, in order. *)
Theorem X4_android_plain_is_detailed_text :
  forall (env : Android.Env) (input : string),
    let M := Android.ExpoTextExtractorModule env in
    agree Android.text (JS.extractTextFromImage M input)
          (JS.extractTextFromImageWithDetails M input) /\
    agree Android.text (JS.extractTextFromImageData M input)
          (JS.extractTextFromImageDataWithDetails M input).
Proof.
  intros env input M. split.
  - unfold M, JS.extractTextFromImage, JS.extractTextFromImageWithDetails.
    cbv zeta. simpl. generalize (JS.replace input "file://" "") as uriString.
    intros uriString.
    unfold Android.extractTextFromImage, Android.extractTextFromImageWithDetails.
    destruct (Android.reactContext env) as [context|];
      [|apply agree_rejected; simpl; eauto 6].
    cbv zeta.
    destruct (prefix "content://" uriString);
      [|destruct (negb (Android.File_exists env uriString));
        [apply agree_rejected; simpl; eauto 6|]];
      (destruct (Android.InputImage_fromFilePath env context _);
       [apply agree_rejected; simpl; eauto 6|apply android_runs_agree]).
  - unfold M, JS.extractTextFromImageData,
      JS.extractTextFromImageDataWithDetails. simpl.
    unfold Android.extractTextFromImageData,
      Android.extractTextFromImageDataWithDetails.
    destruct (Android.Base64_decode env input) as [error|imageBytes];
      [apply agree_rejected; simpl; eauto 6|].
    destruct (Android.BitmapFactory_decodeByteArray env imageBytes);
      [apply android_runs_agree|apply agree_rejected; simpl; eauto 6].
Qed.

(** X5: on iOS too the plain call is the detailed call with each entry
    cut down to its text: both skip the same observations, so the plain
    texts are the [text] members of the detailed entries, in order. *)
Theorem X5_ios_plain_is_detailed_text :
  forall (env : IOS.Env) (input : string),
    let M := IOS.ExpoTextExtractorModule env in
    agree IOS.text (JS.extractTextFromImage M input)
          (JS.extractTextFromImageWithDetails M input) /\
    agree IOS.text (JS.extractTextFromImageData M input)
          (JS.extractTextFromImageDataWithDetails M input).
Proof.
  intros env input M. split.
  - unfold M, JS.extractTextFromImage, JS.extractTextFromImageWithDetails.
    cbv zeta. simpl. generalize (JS.replace input "file://" "") as url.
    intros url.
    unfold IOS.extractTextFromImage, IOS.extractTextFromImageWithDetails.
    destruct (IOS.Data_contentsOf env url) as [error|imageData];
      [apply agree_rejected; simpl; eauto 6|].
    cbv zeta. destruct (IOS.image_cgImage env _) as [cgImage|];
      [apply ios_runs_agree|apply agree_rejected; simpl; eauto 6].
  - unfold M, JS.extractTextFromImageData,
      JS.extractTextFromImageDataWithDetails. simpl.
    unfold IOS.extractTextFromImageData,
      IOS.extractTextFromImageDataWithDetails.
    destruct (IOS.Data_base64Encoded env input) as [imageData|];
      [|apply agree_rejected; simpl; eauto 6].
    cbv zeta. destruct (IOS.image_cgImage env _) as [cgImage|];
      [apply ios_runs_agree|apply agree_rejected; simpl; eauto 6].
Qed.

(** ** Images without text *)

(** X6: an image in which nothing is recognized is no failure.  On
    Android a recognizer answer without text blocks, and on iOS an answer
    without observations or with results that are no observations, make
    each of the four calls that reached the recognizer resolve with the
    empty list. *)
Theorem X6_no_text_resolves_empty :
  (forall (env : Android.Env) (input : string) inputImage,
      let M := Android.ExpoTextExtractorModule env in
      Android.process env inputImage = inr {| MLKit.textBlocks := [] |} ->
      (recognized (JS.extractTextFromImage M input) = [inputImage] ->
       settled (JS.extractTextFromImage M input) = Resolved []) /\
      (recognized (JS.extractTextFromImageData M input) = [inputImage] ->
       settled (JS.extractTextFromImageData M input) = Resolved []) /\
      (recognized (JS.extractTextFromImageWithDetails M input) = [inputImage] ->
       settled (JS.extractTextFromImageWithDetails M input) = Resolved []) /\
      (recognized (JS.extractTextFromImageDataWithDetails M input)
       = [inputImage] ->
       settled (JS.extractTextFromImageDataWithDetails M input) = Resolved [])) /\
  (forall (env : IOS.Env) (input : string) cgImage answer,
      let M := IOS.ExpoTextExtractorModule env in
      IOS.perform env cgImage = inr answer ->
      observed answer = [] ->
      (recognized (JS.extractTextFromImage M input) = [cgImage] ->
       settled (JS.extractTextFromImage M input) = Resolved []) /\
      (recognized (JS.extractTextFromImageData M input) = [cgImage] ->
       settled (JS.extractTextFromImageData M input) = Resolved []) /\
      (recognized (JS.extractTextFromImageWithDetails M input) = [cgImage] ->
       settled (JS.extractTextFromImageWithDetails M input) = Resolved []) /\
      (recognized (JS.extractTextFromImageDataWithDetails M input) = [cgImage] ->
       settled (JS.extractTextFromImageDataWithDetails M input) = Resolved [])).
Proof.
  split.
  - intros env input inputImage M Hproc.
    assert (Hgen : forall (B : Type) (f : MLKit.TextBlock -> B) onFailure
                          (run : Android.Promise env (list B)),
               AndroidRun env
                 (fun visionText => map f (MLKit.textBlocks visionText))
                 onFailure run ->
               recognized run = [inputImage] -> settled run = Resolved []).
    { intros B f onFailure run Hrun Hrec.
      apply (AndroidRun_recognized env _ _ run inputImage _ Hrun Hrec Hproc). }
    repeat split; eapply Hgen.
    + apply extractTextFromImage_run.
    + apply extractTextFromImageData_run.
    + apply extractTextFromImageWithDetails_run.
    + apply extractTextFromImageDataWithDetails_run.
  - intros env input cgImage answer M Hperf Hnone.
    assert (Hgen : forall (B : Type) completion
                          (run : IOS.Promise env (list B)),
               (forall c, completion c [] = []) ->
               IOSRun env completion run ->
               recognized run = [cgImage] -> settled run = Resolved []).
    { intros B completion run Hnil [error|cgImage']; simpl; [discriminate|].
      intros [= ->]. rewrite Hperf.
      destruct answer as [observations|]; [|reflexivity].
      simpl in Hnone. subst observations. now rewrite Hnil. }
    repeat split.
    + apply (Hgen _ (fun _ => IOS.recognizedTexts) _ (fun _ => eq_refl)
               (ios_extractTextFromImage_run env _)).
    + apply (Hgen _ (fun _ => IOS.recognizedTexts) _ (fun _ => eq_refl)
               (ios_extractTextFromImageData_run env _)).
    + apply (Hgen _ (fun c => compactMap (IOS.details env c)) _
               (fun _ => eq_refl)
               (ios_extractTextFromImageWithDetails_run env _)).
    + apply (Hgen _ (fun c => compactMap (IOS.details env c)) _
               (fun _ => eq_refl)
               (ios_extractTextFromImageDataWithDetails_run env _)).
Qed.

Lemma X6_witness :
  let env := Sample.ios 200 100 (inr None) in
  settled (JS.extractTextFromImageWithDetails (IOS.ExpoTextExtractorModule env)
                                              "file:///photo.jpg")
  = Resolved [].
Proof.
  apply (proj1 (proj2 (proj2
           (proj2 X6_no_text_resolves_empty (Sample.ios 200 100 (inr None))
                  "file:///photo.jpg" (200, 100)%Z None eq_refl eq_refl)))).
  reflexivity.
Defined.

(** ** Entries of the Swift module *)

(** X7: on iOS an entry of a detailed call carries the string and the
    confidence of its observation's best candidate, unchanged; there is no
    fallback confidence, and the candidates after the first play no part. *)
Theorem X7_ios_entry_is_the_best_candidate :
  forall (env : IOS.Env) (input : string) run results,
    In run (detailedCalls (IOS.ExpoTextExtractorModule env) input) ->
    settled run = Resolved results ->
    exists cgImage answer,
      recognized run = [cgImage] /\
      IOS.perform env cgImage = inr answer /\
      Forall2
        (fun observation entry =>
           exists best others,
             Vision.candidates observation = best :: others /\
             IOS.text entry = Vision.string_ best /\
             IOS.confidence entry = Vision.confidence best)
        (filter hasCandidate (observed answer)) results.
Proof.
  intros env input run results Hin Hres.
  destruct (IOSRun_resolved env _ run results
              (ios_detailed_run env input run Hin) Hres)
    as (cgImage & Hrec & [[Hperf ->]|(observations & Hperf & ->)]).
  - exists cgImage, None. repeat split; auto.
  - exists cgImage, (Some observations). repeat split; auto. simpl.
    rewrite (filter_ext _ _ (fun o => eq_sym (details_hasCandidate env cgImage o))).
    apply compactMap_Forall2. intros observation entry.
    unfold IOS.details, Vision.topCandidates.
    destruct (Vision.candidates observation) as [|best others]; simpl;
      [discriminate|].
    intros [= <-]. now exists best, others.
Qed.

Lemma X7_witness :
  let env :=
    Sample.ios 200 100
      (inr (Some [Sample.observation
                    [Sample.candidate "Hi" 1; Sample.candidate "H1" 0.5]])) in
  exists cgImage answer,
    recognized (JS.extractTextFromImageDataWithDetails
                  (IOS.ExpoTextExtractorModule env) "AAAA") = [cgImage] /\
    IOS.perform env cgImage = inr answer /\
    Forall2
      (fun observation entry =>
         exists best others,
           Vision.candidates observation = best :: others /\
           IOS.text entry = Vision.string_ best /\
           IOS.confidence entry = Vision.confidence best)
      (filter hasCandidate (observed answer))
      [{| IOS.text := "Hi"; IOS.confidence := 1;
          IOS.boundingBox :=
            {| IOS.x := 50; IOS.y := 25;
               IOS.width := 100; IOS.height := 50 |} |}].
Proof.
  apply (X7_ios_entry_is_the_best_candidate
           (Sample.ios 200 100
              (inr (Some [Sample.observation
                            [Sample.candidate "Hi" 1;
                             Sample.candidate "H1" 0.5]])))
           "AAAA").
  - right; left; reflexivity.
  - vm_compute. reflexivity.
Defined.

(** X8: on iOS a file whose data is no image is named differently by the
    two file calls: [extractTextFromImage] rejects under the name ["err"]
    with the description ["err"], where [extractTextFromImageWithDetails]
    rejects the same file as [INVALID_IMAGE]; neither invokes Vision. *)
Theorem X8_ios_plain_file_call_names_err :
  forall (env : IOS.Env) (uri : string) imageData,
    let M := IOS.ExpoTextExtractorModule env in
    IOS.Data_contentsOf env (JS.replace uri "file://" "") = inr imageData ->
    IOS.image_cgImage env (IOS.UIImage_data env imageData) = None ->
    JS.extractTextFromImage M uri
    = mkRun [] (Rejected (IOS.Exception "err" "err")) /\
    ~ failsFast IOS.name "INVALID_IMAGE" (JS.extractTextFromImage M uri) /\
    JS.extractTextFromImageWithDetails M uri
    = mkRun [] (Rejected (IOS.Exception "INVALID_IMAGE"
                            "Unable to create image from file")).
Proof.
  intros env uri imageData M Hdata Himage.
  unfold M, JS.extractTextFromImage, JS.extractTextFromImageWithDetails.
  cbv zeta. simpl.
  unfold IOS.extractTextFromImage, IOS.extractTextFromImageWithDetails.
  rewrite Hdata. cbv zeta. rewrite Himage.
  repeat split. intros [_ (e & He & Hname)].
  simpl in He. injection He as <-. discriminate Hname.
Qed.

Lemma X8_witness :
  let env :=
    {| IOS.Data := list byte; IOS.UIImage := list byte;
       IOS.CGImage := Z * Z; IOS.NSError := unit;
       IOS.Data_contentsOf := fun _ => inr [];
       IOS.Data_base64Encoded := fun _ => None;
       IOS.UIImage_data := fun _ => None;
       IOS.cgImage := fun _ => None;
       IOS.CGImage_width := fst; IOS.CGImage_height := snd;
       IOS.perform := fun _ => inr None |} in
  JS.extractTextFromImage (IOS.ExpoTextExtractorModule env) "file:///notes.txt"
  = mkRun [] (Rejected (IOS.Exception "err" "err")).
Proof.
  apply (X8_ios_plain_file_call_names_err
           {| IOS.Data := list byte; IOS.UIImage := list byte;
              IOS.CGImage := Z * Z; IOS.NSError := unit;
              IOS.Data_contentsOf := fun _ => inr [];
              IOS.Data_base64Encoded := fun _ => None;
              IOS.UIImage_data := fun _ => None;
              IOS.cgImage := fun _ => None;
              IOS.CGImage_width := fst; IOS.CGImage_height := snd;
              IOS.perform := fun _ => inr None |}
           "file:///notes.txt" []); reflexivity.
Defined.

(** ** The Android box and the native rect *)

Section AndroidBox.

Lemma toInt_javaInt (z : Z) : javaInt z -> MLKit.toInt z = z.
Proof.
  unfold javaInt, MLKit.toInt. intros H.
  rewrite Z.mod_small; lia.
Qed.

End AndroidBox.

(** X9: the Android box loses nothing of a native rect whose sides do not
    overflow an [Int]: the rect is recovered as [left = x], [top = y],
    [right = x + width], [bottom = y + height], and [width] and [height]
    are not negative when the rect is not inverted. *)
Theorem X9_android_box_recovers_the_rect :
  forall (textBlock : MLKit.TextBlock) (r : MLKit.Rect),
    MLKit.boundingBox textBlock = Some r ->
    javaInt (MLKit.right r - MLKit.left r) ->
    javaInt (MLKit.bottom r - MLKit.top r) ->
    exists x y width height,
      Android.boundingBox (Android.details textBlock)
      = {| Android.x := Some x; Android.y := Some y;
           Android.width := Some width; Android.height := Some height |} /\
      r = {| MLKit.left := x; MLKit.top := y;
             MLKit.right := x + width; MLKit.bottom := y + height |} /\
      ((MLKit.left r <= MLKit.right r)%Z -> (0 <= width)%Z) /\
      ((MLKit.top r <= MLKit.bottom r)%Z -> (0 <= height)%Z).
Proof.
  intros textBlock [l t rt b] Hbox Hw Hh. simpl in Hw, Hh.
  exists l, t, (rt - l)%Z, (b - t)%Z.
  unfold Android.details. simpl. rewrite Hbox. simpl.
  unfold MLKit.width, MLKit.height. simpl.
  rewrite (toInt_javaInt _ Hw), (toInt_javaInt _ Hh).
  repeat split; try lia. f_equal; lia.
Qed.

Lemma X9_witness :
  exists x y width height,
    Android.boundingBox
      (Android.details (Sample.block "Hello" None (Some Sample.rect)))
    = {| Android.x := Some x; Android.y := Some y;
         Android.width := Some width; Android.height := Some height |} /\
    Sample.rect
    = {| MLKit.left := x; MLKit.top := y;
         MLKit.right := x + width; MLKit.bottom := y + height |} /\
    ((MLKit.left Sample.rect <= MLKit.right Sample.rect)%Z -> (0 <= width)%Z) /\
    ((MLKit.top Sample.rect <= MLKit.bottom Sample.rect)%Z -> (0 <= height)%Z).
Proof.
  apply (X9_android_box_recovers_the_rect
           (Sample.block "Hello" None (Some Sample.rect)) Sample.rect).
  - reflexivity.
  - unfold javaInt. simpl. lia.
  - unfold javaInt. simpl. lia.
Defined.

(** ** The two error enumerations *)

(** X10: the error codes of the public types are error codes of the
    unified types with the same string values, which are pairwise
    distinct; the unified kinds without a public counterpart are exactly
    [MODEL_NOT_AVAILABLE] and [PERMISSION_DENIED]. *)
Theorem X10_public_error_codes_are_unified_codes :
  (forall c : Types.OCRErrorCode,
      exists k : Unified.OCRErrorCode, Unified.value k = Types.value c) /\
  (forall k k' : Unified.OCRErrorCode,
      Unified.value k = Unified.value k' -> k = k') /\
  (forall k : Unified.OCRErrorCode,
      (forall c : Types.OCRErrorCode, Types.value c <> Unified.value k) <->
      (k = Unified.MODEL_NOT_AVAILABLE \/ k = Unified.PERMISSION_DENIED)).
Proof.
  split; [|split].
  - intros []; [exists Unified.INVALID_IMAGE | exists Unified.INVALID_BASE64
               | exists Unified.PROCESSING_FAILED | exists Unified.TIMEOUT
               | exists Unified.UNSUPPORTED_FORMAT | exists Unified.NETWORK_ERROR
               | exists Unified.UNKNOWN_ERROR]; reflexivity.
  - intros [] []; simpl; intros H; try reflexivity; discriminate H.
  - intros k. split.
    + intros Hnone. destruct k; auto.
      * exfalso. apply (Hnone Types.INVALID_IMAGE). reflexivity.
      * exfalso. apply (Hnone Types.INVALID_BASE64). reflexivity.
      * exfalso. apply (Hnone Types.PROCESSING_FAILED). reflexivity.
      * exfalso. apply (Hnone Types.TIMEOUT). reflexivity.
      * exfalso. apply (Hnone Types.UNSUPPORTED_FORMAT). reflexivity.
      * exfalso. apply (Hnone Types.NETWORK_ERROR). reflexivity.
      * exfalso. apply (Hnone Types.UNKNOWN_ERROR). reflexivity.
    + intros [->| ->] c; destruct c; discriminate.
Qed.

(** ** Content URIs *)

(** X11: on Android a content URI without ["file://"] reaches the Kotlin
    module unchanged and is never looked up as a file: the two file calls
    run alike whatever [File.exists] would answer. *)
Theorem X11_content_uri_skips_the_file_check :
  forall (env : Android.Env) (exists_ : string -> bool) (uri : string),
    prefix "content://" uri = true ->
    absent "file://" uri ->
    JS.extractTextFromImage
      (Android.ExpoTextExtractorModule (withFileExists env exists_)) uri
    = Android.extractTextFromImage env uri /\
    JS.extractTextFromImageWithDetails
      (Android.ExpoTextExtractorModule (withFileExists env exists_)) uri
    = Android.extractTextFromImageWithDetails env uri.
Proof.
  intros env exists_ uri Hc Ha.
  unfold JS.extractTextFromImage, JS.extractTextFromImageWithDetails.
  cbv zeta. rewrite (replace_absent "file://" "" uri Ha). simpl.
  unfold Android.extractTextFromImage, Android.extractTextFromImageWithDetails.
  simpl. destruct (Android.reactContext env); [|split; reflexivity].
  cbv zeta. rewrite Hc. split; reflexivity.
Qed.

Lemma X11_witness :
  let env := Sample.android (inr Sample.page) in
  JS.extractTextFromImage
    (Android.ExpoTextExtractorModule (withFileExists env (fun _ => false)))
    "content://media/7"
  = Android.extractTextFromImage env "content://media/7" /\
  JS.extractTextFromImageWithDetails
    (Android.ExpoTextExtractorModule (withFileExists env (fun _ => false)))
    "content://media/7"
  = Android.extractTextFromImageWithDetails env "content://media/7".
Proof.
  apply (X11_content_uri_skips_the_file_check
           (Sample.android (inr Sample.page)) (fun _ => false)
           "content://media/7").
  - reflexivity.
  - apply indexOf_None_absent. reflexivity.
Defined.

(** ** One image, by file and by payload *)

(** X12: on iOS an image that decodes gives the same run whether it comes
    from a file or from a base64 payload holding the same data: the file
    call equals the data call, plain and detailed. *)
Theorem X12_ios_file_and_payload_agree :
  forall (env : IOS.Env) (uri base64Data : string) imageData cgImage,
    let M := IOS.ExpoTextExtractorModule env in
    IOS.Data_contentsOf env (JS.replace uri "file://" "") = inr imageData ->
    IOS.Data_base64Encoded env base64Data = Some imageData ->
    IOS.image_cgImage env (IOS.UIImage_data env imageData) = Some cgImage ->
    JS.extractTextFromImage M uri = JS.extractTextFromImageData M base64Data /\
    JS.extractTextFromImageWithDetails M uri
    = JS.extractTextFromImageDataWithDetails M base64Data.
Proof.
  intros env uri base64Data imageData cgImage M Hfile Hdata Himage.
  unfold M, JS.extractTextFromImage, JS.extractTextFromImageWithDetails,
    JS.extractTextFromImageData, JS.extractTextFromImageDataWithDetails.
  cbv zeta. simpl.
  unfold IOS.extractTextFromImage, IOS.extractTextFromImageWithDetails,
    IOS.extractTextFromImageData, IOS.extractTextFromImageDataWithDetails.
  rewrite Hfile, Hdata. cbv zeta. rewrite Himage. split; reflexivity.
Qed.

Lemma X12_witness :
  let M :=
    IOS.ExpoTextExtractorModule
      (Sample.ios 200 100
         (inr (Some [Sample.observation [Sample.candidate "Hi" 1]]))) in
  JS.extractTextFromImage M "file:///photo.jpg"
  = JS.extractTextFromImageData M "AAAA" /\
  JS.extractTextFromImageWithDetails M "file:///photo.jpg"
  = JS.extractTextFromImageDataWithDetails M "AAAA".
Proof.
  apply (X12_ios_file_and_payload_agree
           (Sample.ios 200 100
              (inr (Some [Sample.observation [Sample.candidate "Hi" 1]])))
           "file:///photo.jpg" "AAAA" [x00; x00; x00] (200, 100)%Z);
    reflexivity.
Defined.

(** ** The example application *)

Section ProcessImage.
Context {I Q E : Type}.
Variable M : JS.NativeModule (Run I (list string) E) Q.
Variable errorMessage : E -> option string.

(** Awaiting an extraction touches the result and the alerts only. *)
Lemma awaitTexts_frame (run : Run I (list string) E) (st : App.State) :
  let st' := App.awaitTexts errorMessage run st in
  App.isLoading st' = App.isLoading st /\
  App.imageUri st' = App.imageUri st /\
  App.processingMethod st' = App.processingMethod st /\
  App.cameraPermission st' = App.cameraPermission st /\
  App.galleryPermission st' = App.galleryPermission st.
Proof.
  unfold App.awaitTexts.
  destruct (settled run) as [texts|error]; simpl; auto.
  destruct (errorMessage error); simpl; auto.
Qed.

Lemma awaitTexts_outcome (run : Run I (list string) E) (st : App.State) :
  let st' := App.awaitTexts errorMessage run st in
  (forall texts,
      settled run = Resolved texts ->
      App.result st' = texts /\ App.alerts st' = App.alerts st) /\
  (forall error,
      settled run = Rejected error ->
      App.result st' = App.result st /\
      App.alerts st'
      = (App.alerts st
           ++ match errorMessage error with
              | Some message => [("Text Extraction Error", message)]
              | None => []
              end)%list).
Proof.
  unfold App.awaitTexts. split.
  - intros texts ->. simpl. auto.
  - intros error ->. destruct (errorMessage error); simpl; auto.
    now rewrite app_nil_r.
Qed.

Lemma truthy_truthyValue (s : option string) :
  App.truthy s = true -> exists v, App.truthyValue s = Some v /\ s = Some v.
Proof.
  unfold App.truthy, App.truthyValue.
  destruct s as [v|]; [|discriminate].
  destruct (String.eqb v ""); [discriminate|]. intros _. now exists v.
Qed.

Lemma falsy_truthyValue (s : option string) :
  App.truthy s = false -> App.truthyValue s = None.
Proof.
  unfold App.truthy. now destruct (App.truthyValue s).
Qed.

(** After a run that did something: the flag is cleared, a truthy path is
    the preview, and a result that is not empty comes with the method of
    the call that was made. *)
Lemma processImage_after (path base64 : option string) (st : App.State) :
  App.truthy path = true \/ App.truthy base64 = true ->
  let st' := App.processImage M errorMessage path base64 st in
  App.isLoading st' = false /\
  (forall p, App.truthyValue path = Some p -> App.imageUri st' = Some p) /\
  (forall line lines,
      App.result st' = line :: lines ->
      App.processingMethod st'
      = if App.truthy base64 then App.Method_base64 else App.Method_file).
Proof.
  intros Hsome.
  assert (Hguard : negb (App.truthy path) && negb (App.truthy base64) = false)
    by (destruct Hsome as [-> | ->]; simpl; auto using andb_false_r).
  assert (Huri : forall p, App.truthyValue path = Some p ->
                           App.imageUri
                             (if App.truthy path then App.setImageUri path st
                              else st) = Some p).
  { intros p Hp. unfold App.truthy. rewrite Hp. simpl.
    unfold App.truthyValue in Hp. destruct path as [v|]; [|discriminate].
    destruct (String.eqb v ""); [discriminate|]. assumption. }
  unfold App.processImage. rewrite Hguard. cbv zeta.
  set (st0 := if App.truthy path then App.setImageUri path st else st) in *.
  destruct (JS.isSupported M).
  - change (App.truthy base64) with (isSome (App.truthyValue base64)).
    destruct (App.truthyValue base64) as [data|] eqn:Hb; simpl.
    + destruct (awaitTexts_frame
                  (JS.extractTextFromImageData M data)
                  (App.setProcessingMethod App.Method_base64
                     (App.setResult [] (App.setIsLoading true st0))))
        as (_ & -> & -> & _).
      simpl. auto.
    + destruct (App.truthyValue path) as [file|] eqn:Hp; simpl.
      * destruct (awaitTexts_frame
                    (JS.extractTextFromImage M file)
                    (App.setProcessingMethod App.Method_file
                       (App.setResult [] (App.setIsLoading true st0))))
          as (_ & -> & -> & _).
        simpl. auto.
      * repeat split; auto; discriminate.
  - simpl. repeat split; auto; discriminate.
Qed.

End ProcessImage.

(** X13: [processImage] without a path and without a payload (each
    missing or empty) changes nothing; in every other case it ends with
    the loading flag cleared, so the buttons are enabled again, whether
    the extraction resolved, rejected or was not supported, and it leaves
    the two permissions as they were. *)
Theorem X13_processImage_always_clears_loading :
  forall (I Q E : Type) (M : JS.NativeModule (Run I (list string) E) Q)
         (errorMessage : E -> option string)
         (path base64 : option string) (st : App.State),
    let st' := App.processImage M errorMessage path base64 st in
    (App.truthy path = false -> App.truthy base64 = false -> st' = st) /\
    (App.truthy path = true \/ App.truthy base64 = true ->
     App.isLoading st' = false /\
     App.buttonsDisabled (App.render st') = false /\
     App.results (App.render st') <> App.ExtractingText /\
     App.cameraPermission st' = App.cameraPermission st /\
     App.galleryPermission st' = App.galleryPermission st).
Proof.
  intros I Q E M errorMessage path base64 st st'. split.
  - intros Hp Hb. unfold st', App.processImage. now rewrite Hp, Hb.
  - intros Hsome.
    assert (Hguard : negb (App.truthy path) && negb (App.truthy base64) = false)
      by (destruct Hsome as [-> | ->]; simpl; auto using andb_false_r).
    assert (Hload : App.isLoading st' = false /\
                    App.cameraPermission st' = App.cameraPermission st /\
                    App.galleryPermission st' = App.galleryPermission st).
    { unfold st', App.processImage. rewrite Hguard. cbv zeta.
      destruct (JS.isSupported M);
        [|destruct (App.truthy path); simpl; auto].
      destruct (App.truthyValue base64) as [data|];
        [|destruct (App.truthyValue path) as [file|]]; simpl;
        try match goal with
          | |- context [App.awaitTexts errorMessage ?run ?s] =>
              destruct (awaitTexts_frame errorMessage run s)
                as (_ & _ & _ & -> & ->)
          end;
        destruct (App.truthy path); simpl; auto. }
    destruct Hload as (Hl & Hc & Hg).
    unfold App.render. simpl. rewrite Hl. repeat split; auto.
    destruct (_ <? _)%nat; discriminate.
Qed.

Lemma X13_witness :
  let M := Android.ExpoTextExtractorModule (Sample.android (inr Sample.page)) in
  let st' :=
    App.processImage M (fun e => Some (Android.codedMessage e))
                     (Some "file:///missing.jpg") None
                     (App.setIsLoading true App.initial) in
  App.isLoading st' = false /\
  App.buttonsDisabled (App.render st') = false /\
  App.results (App.render st') <> App.ExtractingText /\
  App.cameraPermission st' = None /\
  App.galleryPermission st' = None.
Proof.
  apply (proj2 (X13_processImage_always_clears_loading _ _ _
                  (Android.ExpoTextExtractorModule
                     (Sample.android (inr Sample.page)))
                  (fun e => Some (Android.codedMessage e))
                  (Some "file:///missing.jpg") None
                  (App.setIsLoading true App.initial))).
  left. reflexivity.
Defined.

Section PayloadOnly.
Context {I Q Q' E : Type}.
Variable M : JS.NativeModule (Run I (list string) E) Q.
Variable M' : JS.NativeModule (Run I (list string) E) Q'.
Variable errorMessage : E -> option string.
Hypothesis same_support : JS.isSupported M = JS.isSupported M'.
Hypothesis same_data_call :
  forall data,
    JS.native_extractTextFromImageData M data
    = JS.native_extractTextFromImageData M' data.

(** With a payload, two packages that differ in their file calls only are
    not told apart by [processImage]. *)
Lemma processImage_payload_only (path base64 : option string) (st : App.State) :
  App.truthy base64 = true ->
  App.processImage M errorMessage path base64 st
  = App.processImage M' errorMessage path base64 st.
Proof.
  intros Hb. destruct (truthy_truthyValue base64 Hb) as (data & Hv & ->).
  unfold App.processImage. rewrite Hb, Hv, <- same_support.
  rewrite andb_false_r. cbv zeta.
  unfold JS.extractTextFromImageData. now rewrite <- same_data_call.
Qed.

End PayloadOnly.

(** X14: a payload takes precedence over a path.  When [processImage] is
    given a non-empty base64 string, what it does is decided by
    [extractTextFromImageData] alone: the file call is never made, even
    when a path is given too, and the path only becomes the preview. *)
Theorem X14_payload_takes_precedence :
  forall (I Q Q' E : Type)
         (M : JS.NativeModule (Run I (list string) E) Q)
         (M' : JS.NativeModule (Run I (list string) E) Q')
         (errorMessage : E -> option string)
         (path base64 : option string) (st : App.State),
    JS.isSupported M = JS.isSupported M' ->
    (forall data,
        JS.native_extractTextFromImageData M data
        = JS.native_extractTextFromImageData M' data) ->
    App.truthy base64 = true ->
    App.processImage M errorMessage path base64 st
    = App.processImage M' errorMessage path base64 st /\
    (JS.isSupported M = true ->
     App.processingMethod (App.processImage M errorMessage path base64 st)
     = App.Method_base64) /\
    App.imageUri (App.processImage M errorMessage path base64 st)
    = (if App.truthy path then path else App.imageUri st).
Proof.
  intros I Q Q' E M M' errorMessage path base64 st Hs Hdata Hb.
  split; [now apply processImage_payload_only|].
  destruct (truthy_truthyValue base64 Hb) as (data & Hv & ->).
  unfold App.processImage. rewrite Hb, Hv.
  rewrite andb_false_r. cbv zeta.
  unfold JS.extractTextFromImageData.
  destruct (JS.isSupported M); simpl.
  - destruct (awaitTexts_frame errorMessage
                (JS.native_extractTextFromImageData M data)
                (App.setProcessingMethod App.Method_base64
                   (App.setResult []
                      (App.setIsLoading true
                         (if App.truthy path then App.setImageUri path st
                          else st)))))
      as (_ & -> & -> & _).
    simpl. split; [reflexivity|]. now destruct (App.truthy path).
  - split; [discriminate|]. now destruct (App.truthy path).
Qed.

Lemma X14_witness :
  let env := Sample.android (inr Sample.page) in
  let M := Android.ExpoTextExtractorModule env in
  let M' :=
    Android.ExpoTextExtractorModule (withFileExists env (fun _ => false)) in
  let em := fun e : Android.CodedException => Some (Android.codedMessage e) in
  App.processImage M em (Some "file:///photo.jpg") (Some "AAAA") App.initial
  = App.processImage M' em (Some "file:///photo.jpg") (Some "AAAA") App.initial /\
  (JS.isSupported M = true ->
   App.processingMethod
     (App.processImage M em (Some "file:///photo.jpg") (Some "AAAA") App.initial)
   = App.Method_base64) /\
  App.imageUri
    (App.processImage M em (Some "file:///photo.jpg") (Some "AAAA") App.initial)
  = Some "file:///photo.jpg".
Proof.
  apply (X14_payload_takes_precedence _ _ _ _
           (Android.ExpoTextExtractorModule (Sample.android (inr Sample.page)))
           (Android.ExpoTextExtractorModule
              (withFileExists (Sample.android (inr Sample.page))
                              (fun _ => false)))
           (fun e => Some (Android.codedMessage e))
           (Some "file:///photo.jpg") (Some "AAAA") App.initial).
  - reflexivity.
  - intros data. reflexivity.
  - reflexivity.
Defined.

(** X15: what a file extraction leaves behind.  With a path and no
    payload on a supported device, [processImage] first clears the old
    result; a resolved call then puts its texts there and raises no
    alert; a rejected call leaves the result empty and raises one alert
    titled ["Text Extraction Error"] with the error's message, or none at
    all when the rejection is no [Error]. *)
Theorem X15_file_extraction_outcome :
  forall (I Q E : Type) (M : JS.NativeModule (Run I (list string) E) Q)
         (errorMessage : E -> option string)
         (file : string) (base64 : option string) (st : App.State),
    let st' := App.processImage M errorMessage (Some file) base64 st in
    JS.isSupported M = true ->
    file <> "" ->
    App.truthy base64 = false ->
    App.imageUri st' = Some file /\
    App.processingMethod st' = App.Method_file /\
    (forall texts,
        settled (JS.extractTextFromImage M file) = Resolved texts ->
        App.result st' = texts /\ App.alerts st' = App.alerts st) /\
    (forall error,
        settled (JS.extractTextFromImage M file) = Rejected error ->
        App.result st' = [] /\
        App.alerts st'
        = (App.alerts st
             ++ match errorMessage error with
                | Some message => [("Text Extraction Error", message)]
                | None => []
                end)%list).
Proof.
  intros I Q E M errorMessage file base64 st st' Hs Hfile Hb.
  assert (Hv : App.truthyValue (Some file) = Some file).
  { simpl. destruct (String.eqb_spec file ""); congruence. }
  assert (Hp : App.truthy (Some file) = true)
    by (unfold App.truthy; now rewrite Hv).
  unfold st', App.processImage.
  rewrite Hp, Hb, Hs, (falsy_truthyValue _ Hb), Hv. cbv zeta. simpl.
  set (st0 := App.setProcessingMethod App.Method_file _).
  destruct (awaitTexts_frame errorMessage (JS.extractTextFromImage M file) st0)
    as (_ & -> & -> & _).
  destruct (awaitTexts_outcome errorMessage (JS.extractTextFromImage M file) st0)
    as [Hres Hrej].
  split; [reflexivity|]. split; [reflexivity|]. split.
  - intros texts Ht. apply (Hres texts Ht).
  - intros error He. apply (Hrej error He).
Qed.

Lemma X15_witness :
  let M := Android.ExpoTextExtractorModule (Sample.android (inr Sample.page)) in
  let em := fun e : Android.CodedException => Some (Android.codedMessage e) in
  let st' :=
    App.processImage M em (Some "file:///missing.jpg") None
      (App.setResult ["old"] App.initial) in
  App.result st' = [] /\
  App.alerts st'
  = [("Text Extraction Error", "File not found: /missing.jpg")].
Proof.
  apply (proj2 (proj2 (proj2
           (X15_file_extraction_outcome _ _ _
              (Android.ExpoTextExtractorModule
                 (Sample.android (inr Sample.page)))
              (fun e => Some (Android.codedMessage e))
              "file:///missing.jpg" None
              (App.setResult ["old"] App.initial)
              eq_refl ltac:(discriminate) eq_refl)))
           (Android.CodedException_code_message_cause "UNKNOWN_ERROR"
              "File not found: /missing.jpg"
              (Android.Exception "File not found: /missing.jpg"))).
  reflexivity.
Defined.

(** X16: what the screen shows after [processImage] has run.  It never
    shows the spinner; it shows the lines of the result under the label of
    the call that produced them, ["Base64 Data"] when a payload was given
    and ["File URI"] otherwise; and with an empty result, which is what a
    rejected or unsupported extraction leaves, it shows ["No text
    detected"]. *)
Theorem X16_screen_after_processing :
  forall (I Q E : Type) (M : JS.NativeModule (Run I (list string) E) Q)
         (errorMessage : E -> option string)
         (path base64 : option string) (st : App.State),
    let st' := App.processImage M errorMessage path base64 st in
    App.truthy path = true \/ App.truthy base64 = true ->
    App.results (App.render st')
    = match App.result st' with
      | [] => App.NoTextDetected
      | _ :: _ =>
          App.Lines (if App.truthy base64 then "Base64 Data" else "File URI")
                    (App.result st')
      end /\
    (forall p, App.truthyValue path = Some p ->
               App.preview (App.render st') = App.Image p).
Proof.
  intros I Q E M errorMessage path base64 st st' Hsome.
  destruct (processImage_after M errorMessage path base64 st Hsome)
    as (Hload & Huri & Hmethod).
  fold st' in Hload, Huri, Hmethod.
  unfold App.render. simpl. rewrite Hload. split.
  - destruct (App.result st') as [|line lines] eqn:Hr; [reflexivity|].
    simpl. rewrite (Hmethod line lines eq_refl).
    now destruct (App.truthy base64).
  - intros p Hp. rewrite (Huri p Hp). simpl in Hp |- *.
    unfold App.truthyValue in Hp |- *.
    destruct path as [v|]; [|discriminate].
    destruct (String.eqb v "") eqn:Ev; [discriminate|].
    injection Hp as <-. now rewrite Ev.
Qed.

Lemma X16_witness :
  let M := Android.ExpoTextExtractorModule (Sample.android (inr Sample.page)) in
  let em := fun e : Android.CodedException => Some (Android.codedMessage e) in
  let st' :=
    App.processImage M em (Some "file:///photo.jpg") (Some "AAAA") App.initial in
  App.results (App.render st')
  = App.Lines "Base64 Data" ["Hello"; "World"] /\
  (forall p, App.truthyValue (Some "file:///photo.jpg") = Some p ->
             App.preview (App.render st') = App.Image p).
Proof.
  apply (X16_screen_after_processing _ _ _
           (Android.ExpoTextExtractorModule (Sample.android (inr Sample.page)))
           (fun e => Some (Android.codedMessage e))
           (Some "file:///photo.jpg") (Some "AAAA") App.initial).
  left. reflexivity.
Defined.

Section Alerts.
Context {I Q E : Type}.
Variable M : JS.NativeModule (Run I (list string) E) Q.
Variable errorMessage : E -> option string.

Lemma awaitTexts_alerts (run : Run I (list string) E) (st : App.State) :
  exists added,
    App.alerts (App.awaitTexts errorMessage run st)
    = (App.alerts st ++ added)%list /\
    (List.length added <= 1)%nat /\
    Forall (fun a => fst a = "Text Extraction Error") added.
Proof.
  unfold App.awaitTexts.
  destruct (settled run) as [texts|error]; simpl.
  - exists []. rewrite app_nil_r. auto.
  - destruct (errorMessage error) as [message|]; simpl.
    + exists [("Text Extraction Error", message)]. auto.
    + exists []. rewrite app_nil_r. auto.
Qed.

Lemma processImage_alerts (path base64 : option string) (st : App.State) :
  JS.isSupported M = true ->
  exists added,
    App.alerts (App.processImage M errorMessage path base64 st)
    = (App.alerts st ++ added)%list /\
    (List.length added <= 1)%nat /\
    Forall (fun a => fst a = "Text Extraction Error") added.
Proof.
  intros Hs. unfold App.processImage. rewrite Hs.
  destruct (negb (App.truthy path) && negb (App.truthy base64)).
  - exists []. rewrite app_nil_r. auto.
  - cbv zeta.
    assert (Halerts : App.alerts
                        (if App.truthy path then App.setImageUri path st else st)
                      = App.alerts st) by now destruct (App.truthy path).
    destruct (App.truthyValue base64) as [data|];
      [|destruct (App.truthyValue path) as [file|]]; simpl.
    + destruct (awaitTexts_alerts
                  (JS.extractTextFromImageData M data)
                  (App.setProcessingMethod App.Method_base64
                     (App.setResult []
                        (App.setIsLoading true
                           (if App.truthy path then App.setImageUri path st
                            else st)))))
        as (added & Ha & Hrest).
      exists added. rewrite Ha. simpl. now rewrite Halerts.
    + destruct (awaitTexts_alerts
                  (JS.extractTextFromImage M file)
                  (App.setProcessingMethod App.Method_file
                     (App.setResult []
                        (App.setIsLoading true
                           (if App.truthy path then App.setImageUri path st
                            else st)))))
        as (added & Ha & Hrest).
      exists added. rewrite Ha. simpl. now rewrite Halerts.
    + exists [("Text Extraction Error", "No image data provided")].
      rewrite Halerts. auto.
Qed.

End Alerts.

(** X17: on both platforms the module reports itself supported, so the
    application never raises its ["Not Supported"] alert: one run of
    [processImage] adds at most one alert, and that alert is titled
    ["Text Extraction Error"]. *)
Theorem X17_platform_alerts :
  (forall (env : Android.Env) errorMessage path base64 (st : App.State),
      exists added,
        App.alerts (App.processImage (Android.ExpoTextExtractorModule env)
                                     errorMessage path base64 st)
        = (App.alerts st ++ added)%list /\
        (List.length added <= 1)%nat /\
        Forall (fun a => fst a = "Text Extraction Error") added) /\
  (forall (env : IOS.Env) errorMessage path base64 (st : App.State),
      exists added,
        App.alerts (App.processImage (IOS.ExpoTextExtractorModule env)
                                     errorMessage path base64 st)
        = (App.alerts st ++ added)%list /\
        (List.length added <= 1)%nat /\
        Forall (fun a => fst a = "Text Extraction Error") added).
Proof.
  split; intros env errorMessage path base64 st;
    apply processImage_alerts; reflexivity.
Qed.

(** ** The picker handlers *)

(** X18: without the permission nothing is picked.  When the permission a
    handler needs is not granted and the request for it is answered with
    anything but [GRANTED], the handler raises the ["Permission Required"]
    alert, records the answer, and stops: the picker is not launched and
    no image is processed. *)
Theorem X18_no_permission_no_launch :
  forall (I Q E X : Type) (M : JS.NativeModule (Run I (list string) E) Q)
         (errorMessage : E -> option string)
         (thrownMessage : X -> option string)
         (picker : App.Picker X) (status : App.PermissionStatus)
         (st : App.State),
    status <> App.GRANTED ->
    (App.galleryPermission st <> Some App.GRANTED ->
     App.requestMediaLibraryPermissionsAsync picker = inr status ->
     App.handleImagePick M errorMessage thrownMessage picker st
     = App.setGalleryPermission (Some status)
         (App.alert "Permission Required"
            "Please grant access to your photo library to use this feature"
            st)) /\
    (App.cameraPermission st <> Some App.GRANTED ->
     App.requestCameraPermissionsAsync picker = inr status ->
     App.handleCameraCapture M errorMessage thrownMessage picker st
     = App.setCameraPermission (Some status)
         (App.alert "Permission Required"
            "Please grant access to your camera to use this feature" st)).
Proof.
  intros I Q E X M errorMessage thrownMessage picker status st Hstatus.
  assert (Hneq : negb (App.PermissionStatus_eqb status App.GRANTED) = true)
    by (destruct status; [congruence|reflexivity|reflexivity]).
  split; intros Hperm Hreq.
  - unfold App.handleImagePick. cbv zeta. rewrite Hreq, Hneq.
    destruct (App.galleryPermission st) as [[| |]|]; congruence.
  - unfold App.handleCameraCapture. cbv zeta. rewrite Hreq, Hneq.
    destruct (App.cameraPermission st) as [[| |]|]; congruence.
Qed.

Lemma X18_witness :
  let picker :=
    {| App.requestCameraPermissionsAsync := inr App.DENIED;
       App.requestMediaLibraryPermissionsAsync := inr App.DENIED;
       App.launchCameraAsync := inl tt;
       App.launchImageLibraryAsync := inl tt |} in
  App.handleImagePick
    (Android.ExpoTextExtractorModule (Sample.android (inr Sample.page)))
    (fun e => Some (Android.codedMessage e)) (fun _ : unit => Some "thrown")
    picker App.initial
  = App.setGalleryPermission (Some App.DENIED)
      (App.alert "Permission Required"
         "Please grant access to your photo library to use this feature"
         App.initial).
Proof.
  apply (proj1 (X18_no_permission_no_launch _ _ _ _
                  (Android.ExpoTextExtractorModule
                     (Sample.android (inr Sample.page)))
                  (fun e => Some (Android.codedMessage e))
                  (fun _ : unit => Some "thrown")
                  {| App.requestCameraPermissionsAsync := inr App.DENIED;
                     App.requestMediaLibraryPermissionsAsync := inr App.DENIED;
                     App.launchCameraAsync := inl tt;
                     App.launchImageLibraryAsync := inl tt |}
                  App.DENIED App.initial ltac:(discriminate))).
  - discriminate.
  - reflexivity.
Defined.

(** X19: a pick that brings no image changes nothing.  With the
    permission granted, a picker result that is canceled, or that has no
    asset, leaves the state of the application as it was: the old result
    and preview stay, and no alert is raised. *)
Theorem X19_empty_pick_changes_nothing :
  forall (I Q E X : Type) (M : JS.NativeModule (Run I (list string) E) Q)
         (errorMessage : E -> option string)
         (thrownMessage : X -> option string)
         (picker : App.Picker X) (result : App.ImagePickerResult)
         (st : App.State),
    App.canceled result = true \/ App.assets result = None \/
    App.assets result = Some [] ->
    (App.galleryPermission st = Some App.GRANTED ->
     App.launchImageLibraryAsync picker = inr result ->
     App.handleImagePick M errorMessage thrownMessage picker st = st) /\
    (App.cameraPermission st = Some App.GRANTED ->
     App.launchCameraAsync picker = inr result ->
     App.handleCameraCapture M errorMessage thrownMessage picker st = st).
Proof.
  intros I Q E X M errorMessage thrownMessage picker result st Hempty.
  assert (Hnone : App.processResult M errorMessage result st = st).
  { unfold App.processResult.
    destruct (App.canceled result); [reflexivity|]. simpl.
    destruct Hempty as [H|[-> | ->]]; [discriminate|reflexivity|reflexivity]. }
  split; intros Hperm Hlaunch.
  - unfold App.handleImagePick. cbv zeta. now rewrite Hperm, Hlaunch.
  - unfold App.handleCameraCapture. cbv zeta. now rewrite Hperm, Hlaunch.
Qed.

Lemma X19_witness :
  let picker :=
    {| App.requestCameraPermissionsAsync := inr App.GRANTED;
       App.requestMediaLibraryPermissionsAsync := inr App.GRANTED;
       App.launchCameraAsync :=
         inr {| App.canceled := true; App.assets := None |};
       App.launchImageLibraryAsync :=
         inr {| App.canceled := true; App.assets := None |} |} in
  let st :=
    App.setCameraPermission (Some App.GRANTED)
      (App.setResult ["old"] App.initial) in
  App.handleCameraCapture
    (Android.ExpoTextExtractorModule (Sample.android (inr Sample.page)))
    (fun e => Some (Android.codedMessage e)) (fun _ : unit => Some "thrown")
    picker st
  = st.
Proof.
  apply (proj2 (X19_empty_pick_changes_nothing _ _ _ _
                  (Android.ExpoTextExtractorModule
                     (Sample.android (inr Sample.page)))
                  (fun e => Some (Android.codedMessage e))
                  (fun _ : unit => Some "thrown")
                  {| App.requestCameraPermissionsAsync := inr App.GRANTED;
                     App.requestMediaLibraryPermissionsAsync := inr App.GRANTED;
                     App.launchCameraAsync :=
                       inr {| App.canceled := true; App.assets := None |};
                     App.launchImageLibraryAsync :=
                       inr {| App.canceled := true; App.assets := None |} |}
                  {| App.canceled := true; App.assets := None |}
                  (App.setCameraPermission (Some App.GRANTED)
                     (App.setResult ["old"] App.initial))
                  (or_introl eq_refl))); reflexivity.
Defined.

(** X20: a picked image that comes with its base64 data is extracted from
    that data.  With the permission granted and a first asset that has a
    non-empty [base64], both handlers call [processImage] with the asset's
    uri and payload, and two packages that differ in their file calls only
    are not told apart: the picked file is never read through
    [extractTextFromImage]. *)
Theorem X20_picked_payload_is_used :
  forall (I Q Q' E X : Type)
         (M : JS.NativeModule (Run I (list string) E) Q)
         (M' : JS.NativeModule (Run I (list string) E) Q')
         (errorMessage : E -> option string)
         (thrownMessage : X -> option string)
         (picker : App.Picker X) (asset : App.Asset) (others : list App.Asset)
         (st : App.State),
    let result :=
      {| App.canceled := false; App.assets := Some (asset :: others) |} in
    JS.isSupported M = JS.isSupported M' ->
    (forall data,
        JS.native_extractTextFromImageData M data
        = JS.native_extractTextFromImageData M' data) ->
    App.truthy (App.base64 asset) = true ->
    (App.galleryPermission st = Some App.GRANTED ->
     App.launchImageLibraryAsync picker = inr result ->
     App.handleImagePick M errorMessage thrownMessage picker st
     = App.processImage M errorMessage (Some (App.uri asset))
                        (App.base64 asset) st /\
     App.handleImagePick M errorMessage thrownMessage picker st
     = App.handleImagePick M' errorMessage thrownMessage picker st) /\
    (App.cameraPermission st = Some App.GRANTED ->
     App.launchCameraAsync picker = inr result ->
     App.handleCameraCapture M errorMessage thrownMessage picker st
     = App.processImage M errorMessage (Some (App.uri asset))
                        (App.base64 asset) st /\
     App.handleCameraCapture M errorMessage thrownMessage picker st
     = App.handleCameraCapture M' errorMessage thrownMessage picker st).
Proof.
  intros I Q Q' E X M M' errorMessage thrownMessage picker asset others st
         result Hs Hdata Hb.
  pose proof (processImage_payload_only M M' errorMessage Hs Hdata
                (Some (App.uri asset)) (App.base64 asset) st Hb) as Hsame.
  split; intros Hperm Hlaunch.
  - unfold App.handleImagePick. cbv zeta. rewrite Hperm, Hlaunch.
    unfold App.processResult, result. simpl. rewrite Hb. auto.
  - unfold App.handleCameraCapture. cbv zeta. rewrite Hperm, Hlaunch.
    unfold App.processResult, result. simpl. rewrite Hb. auto.
Qed.

Lemma X20_witness :
  let asset := {| App.uri := "file:///photo.jpg"; App.base64 := Some "AAAA" |} in
  let picker :=
    {| App.requestCameraPermissionsAsync := inr App.GRANTED;
       App.requestMediaLibraryPermissionsAsync := inr App.GRANTED;
       App.launchCameraAsync := inl tt;
       App.launchImageLibraryAsync :=
         inr {| App.canceled := false; App.assets := Some [asset] |} |} in
  let env := Sample.android (inr Sample.page) in
  let M := Android.ExpoTextExtractorModule env in
  let M' :=
    Android.ExpoTextExtractorModule (withFileExists env (fun _ => false)) in
  let em := fun e : Android.CodedException => Some (Android.codedMessage e) in
  let st := App.setGalleryPermission (Some App.GRANTED) App.initial in
  App.handleImagePick M em (fun _ : unit => Some "thrown") picker st
  = App.processImage M em (Some "file:///photo.jpg") (Some "AAAA") st /\
  App.handleImagePick M em (fun _ : unit => Some "thrown") picker st
  = App.handleImagePick M' em (fun _ : unit => Some "thrown") picker st.
Proof.
  apply (proj1 (X20_picked_payload_is_used _ _ _ _ _
                  (Android.ExpoTextExtractorModule
                     (Sample.android (inr Sample.page)))
                  (Android.ExpoTextExtractorModule
                     (withFileExists (Sample.android (inr Sample.page))
                                     (fun _ => false)))
                  (fun e => Some (Android.codedMessage e))
                  (fun _ : unit => Some "thrown")
                  {| App.requestCameraPermissionsAsync := inr App.GRANTED;
                     App.requestMediaLibraryPermissionsAsync := inr App.GRANTED;
                     App.launchCameraAsync := inl tt;
                     App.launchImageLibraryAsync :=
                       inr {| App.canceled := false;
                              App.assets :=
                                Some [{| App.uri := "file:///photo.jpg";
                                         App.base64 := Some "AAAA" |}] |} |}
                  {| App.uri := "file:///photo.jpg"; App.base64 := Some "AAAA" |}
                  []
                  (App.setGalleryPermission (Some App.GRANTED) App.initial)
                  eq_refl (fun _ => eq_refl) eq_refl)); reflexivity.
Defined.

(** X21: a picker that throws.  With the permission granted, a launch
    that throws leaves the result and the preview as they were and raises
    one alert with the thrown error's message (["Image Pick Error"] or
    ["Camera Error"]), or none when the thrown value is no [Error]; the
    camera handler also clears the loading flag, the library handler
    leaves it as it was. *)
Theorem X21_picker_failure :
  forall (I Q E X : Type) (M : JS.NativeModule (Run I (list string) E) Q)
         (errorMessage : E -> option string)
         (thrownMessage : X -> option string)
         (picker : App.Picker X) (error : X) (st : App.State),
    let raised title :=
      match thrownMessage error with
      | Some message => [(title, message)]
      | None => []
      end in
    (App.galleryPermission st = Some App.GRANTED ->
     App.launchImageLibraryAsync picker = inl error ->
     let st' := App.handleImagePick M errorMessage thrownMessage picker st in
     App.result st' = App.result st /\
     App.imageUri st' = App.imageUri st /\
     App.isLoading st' = App.isLoading st /\
     App.alerts st' = (App.alerts st ++ raised "Image Pick Error")%list) /\
    (App.cameraPermission st = Some App.GRANTED ->
     App.launchCameraAsync picker = inl error ->
     let st' := App.handleCameraCapture M errorMessage thrownMessage picker st in
     App.result st' = App.result st /\
     App.imageUri st' = App.imageUri st /\
     App.isLoading st' = false /\
     App.alerts st' = (App.alerts st ++ raised "Camera Error")%list).
Proof.
  intros I Q E X M errorMessage thrownMessage picker error st raised.
  split; intros Hperm Hlaunch; cbv zeta; unfold raised.
  - unfold App.handleImagePick. cbv zeta. rewrite Hperm, Hlaunch.
    destruct (thrownMessage error); simpl; rewrite ?app_nil_r; auto.
  - unfold App.handleCameraCapture. cbv zeta. rewrite Hperm, Hlaunch.
    destruct (thrownMessage error); simpl; rewrite ?app_nil_r; auto.
Qed.

Lemma X21_witness :
  let picker :=
    {| App.requestCameraPermissionsAsync := inr App.GRANTED;
       App.requestMediaLibraryPermissionsAsync := inr App.GRANTED;
       App.launchCameraAsync := inl "Camera not available";
       App.launchImageLibraryAsync := inl "Library not available" |} in
  let st :=
    App.setIsLoading true
      (App.setCameraPermission (Some App.GRANTED) App.initial) in
  let st' :=
    App.handleCameraCapture
      (Android.ExpoTextExtractorModule (Sample.android (inr Sample.page)))
      (fun e => Some (Android.codedMessage e)) (fun message => Some message)
      picker st in
  App.result st' = [] /\
  App.imageUri st' = None /\
  App.isLoading st' = false /\
  App.alerts st' = [("Camera Error", "Camera not available")].
Proof.
  apply (proj2 (X21_picker_failure _ _ _ _
                  (Android.ExpoTextExtractorModule
                     (Sample.android (inr Sample.page)))
                  (fun e => Some (Android.codedMessage e))
                  (fun message => Some message)
                  {| App.requestCameraPermissionsAsync := inr App.GRANTED;
                     App.requestMediaLibraryPermissionsAsync := inr App.GRANTED;
                     App.launchCameraAsync := inl "Camera not available";
                     App.launchImageLibraryAsync := inl "Library not available" |}
                  "Camera not available"
                  (App.setIsLoading true
                     (App.setCameraPermission (Some App.GRANTED) App.initial))));
    reflexivity.
Defined.

(** X22: a device without text extraction.  When the package reports
    itself unsupported, [processImage] makes no native call at all: it
    shows the path as the preview, clears the result, ends with the loading
    flag cleared and raises the ["Not Supported"] alert, whatever the
    native functions would return. *)
Theorem X22_unsupported_device :
  forall (I Q E : Type) (M : JS.NativeModule (Run I (list string) E) Q)
         (errorMessage : E -> option string)
         (path base64 : option string) (st : App.State),
    let st' := App.processImage M errorMessage path base64 st in
    JS.isSupported M = false ->
    App.truthy path = true \/ App.truthy base64 = true ->
    App.result st' = [] /\
    App.isLoading st' = false /\
    App.imageUri st' = (if App.truthy path then path else App.imageUri st) /\
    App.processingMethod st' = App.processingMethod st /\
    App.alerts st'
    = (App.alerts st
         ++ [("Not Supported",
              "Text extraction is not supported on this device")])%list.
Proof.
  intros I Q E M errorMessage path base64 st st' Hs Hsome.
  assert (Hguard : negb (App.truthy path) && negb (App.truthy base64) = false)
    by (destruct Hsome as [-> | ->]; simpl; auto using andb_false_r).
  unfold st', App.processImage. rewrite Hguard, Hs. cbv zeta. simpl.
  destruct (App.truthy path); simpl; auto.
Qed.

Lemma X22_witness :
  let M :=
    {| JS.isSupported := false;
       JS.native_extractTextFromImage :=
         fun _ => mkRun [tt] (@Resolved (list string) unit ["never"]);
       JS.native_extractTextFromImageData :=
         fun _ => mkRun [tt] (@Resolved (list string) unit ["never"]);
       JS.native_extractTextFromImageWithDetails := fun uri : string => uri;
       JS.native_extractTextFromImageDataWithDetails :=
         fun base64Data : string => base64Data |} in
  let st' :=
    App.processImage M (fun _ => None) (Some "file:///photo.jpg") None
                     (App.setResult ["old"] App.initial) in
  App.result st' = [] /\
  App.isLoading st' = false /\
  App.imageUri st' = Some "file:///photo.jpg" /\
  App.processingMethod st' = App.Method_file /\
  App.alerts st'
  = [("Not Supported", "Text extraction is not supported on this device")].
Proof.
  apply (X22_unsupported_device _ _ _
           {| JS.isSupported := false;
              JS.native_extractTextFromImage :=
                fun _ => mkRun [tt] (@Resolved (list string) unit ["never"]);
              JS.native_extractTextFromImageData :=
                fun _ => mkRun [tt] (@Resolved (list string) unit ["never"]);
              JS.native_extractTextFromImageWithDetails := fun uri : string => uri;
              JS.native_extractTextFromImageDataWithDetails :=
                fun base64Data : string => base64Data |}
           (fun _ => None) (Some "file:///photo.jpg") None
           (App.setResult ["old"] App.initial)).
  - reflexivity.
  - left. reflexivity.
Defined.

(** ** Messages of the Kotlin module *)

(** X23: what an Android rejection says before recognition.  A path that
    names no file is reported as ["File not found: "] followed by the
    path as the Kotlin module received it, that is with ["file://"]
    already cut out; a payload that is no base64 is reported with the
    decoder's own message, or with ["Unknown error"] when the decoder
    gave none. *)
Theorem X23_android_rejection_messages :
  (forall (env : Android.Env) (uri : string) context,
      let M := Android.ExpoTextExtractorModule env in
      let processedUri := JS.replace uri "file://" "" in
      Android.reactContext env = Some context ->
      prefix "content://" processedUri = false ->
      Android.File_exists env processedUri = false ->
      (exists e, settled (JS.extractTextFromImage M uri) = Rejected e /\
                 Android.codedMessage e = "File not found: " ++ processedUri) /\
      (exists e, settled (JS.extractTextFromImageWithDetails M uri) = Rejected e /\
                 Android.codedMessage e = "File not found: " ++ processedUri)) /\
  (forall (env : Android.Env) (base64Data : string) error,
      let M := Android.ExpoTextExtractorModule env in
      Android.Base64_decode env base64Data = inl error ->
      let said :=
        match Android.message error with
        | Some message => message
        | None => "Unknown error"
        end in
      (exists e, settled (JS.extractTextFromImageData M base64Data) = Rejected e /\
                 Android.codedMessage e = said) /\
      (exists e, settled (JS.extractTextFromImageDataWithDetails M base64Data)
                 = Rejected e /\
                 Android.codedMessage e = said)).
Proof.
  split.
  - intros env uri context M processedUri Hctx Hc Hf.
    unfold M, JS.extractTextFromImage, JS.extractTextFromImageWithDetails.
    cbv zeta. fold processedUri. simpl.
    unfold Android.extractTextFromImage, Android.extractTextFromImageWithDetails.
    rewrite Hctx. cbv zeta. rewrite Hc, Hf. simpl.
    split; eexists; split; reflexivity.
  - intros env base64Data error M Hdec said.
    unfold M, JS.extractTextFromImageData,
      JS.extractTextFromImageDataWithDetails. simpl.
    unfold Android.extractTextFromImageData,
      Android.extractTextFromImageDataWithDetails.
    rewrite Hdec. split; eexists; split; reflexivity.
Qed.

Lemma X23_witness :
  let M := Android.ExpoTextExtractorModule (Sample.android (inr Sample.page)) in
  (exists e, settled (JS.extractTextFromImage M "file:///missing.jpg")
             = Rejected e /\
             Android.codedMessage e = "File not found: /missing.jpg") /\
  (exists e, settled (JS.extractTextFromImageWithDetails M "file:///missing.jpg")
             = Rejected e /\
             Android.codedMessage e = "File not found: /missing.jpg").
Proof.
  apply (proj1 X23_android_rejection_messages
               (Sample.android (inr Sample.page)) "file:///missing.jpg" tt);
    reflexivity.
Defined.
